(** * BarcodeScanner: the camera scan loop of src/js/modules/scanner/barcode-scanner.js

    A shallow embedding of the [BarcodeScanner] module: its module-level
    variables, the host objects it talks to (clock, camera, DOM, network) and
    its functions [init], [start], [stop], [tick], [decodeBarcode],
    [processCode], [fetchProductByBarcode] and [displayProduct], followed by
    the properties of the debounce filter and of the start/stop life cycle.

    Conventions of the embedding.
    - JavaScript numbers that hold millisecond timestamps and counters are
      integers ([Z]); strings are [string] and [!==] on them is [String.eqb].
    - A function body is a computation in the monad [M]: it threads the world
      and may throw; [try_catch] is JavaScript's [try { } catch (e) { }].
    - An [async] function is split at each [await]: the part before it runs
      in the caller's turn of the event loop ([start_begin],
      [fetchProductByBarcode]), the part after it runs in a later turn, when
      the awaited promise settles ([start_resume], [fetch_resume]).
    - [Date.now()] reads the host clock, which stands still during one turn
      of the event loop.
    - The DOM elements looked up by [init] are taken to exist, so writing a
      property of one of them does not throw; each write is recorded on
      [screen]. *)

From Stdlib Require Import ZArith List String Bool Lia DecimalString.
Import ListNotations.

Open Scope string_scope.
Open Scope Z_scope.

(** ** Data *)

(** [const config = { ... }] *)
Record Config := mkConfig {
  scanInterval : Z;
  scanTimeout : Z;
  autostart : bool;
  beepOnSuccess : bool;
  vibrateOnSuccess : bool;
  codeValidTimeout : Z;
  cameraFacingMode : string;
  selectByCode : bool
}.

Definition default_config : Config :=
  {| scanInterval := 100;
     scanTimeout := 5000;
     autostart := true;
     beepOnSuccess := true;
     vibrateOnSuccess := true;
     codeValidTimeout := 2000;
     cameraFacingMode := "environment";
     selectByCode := true |}.

(** The [options] argument of [init]: any subset of the keys of [config]. *)
Record Options := mkOptions {
  o_scanInterval : option Z;
  o_scanTimeout : option Z;
  o_autostart : option bool;
  o_beepOnSuccess : option bool;
  o_vibrateOnSuccess : option bool;
  o_codeValidTimeout : option Z;
  o_cameraFacingMode : option string;
  o_selectByCode : option bool
}.

Definition or_else {A : Type} (o : option A) (d : A) : A :=
  match o with Some a => a | None => d end.

(** [Object.assign(config, options)] *)
Definition assign (c : Config) (o : Options) : Config :=
  {| scanInterval := or_else (o_scanInterval o) (scanInterval c);
     scanTimeout := or_else (o_scanTimeout o) (scanTimeout c);
     autostart := or_else (o_autostart o) (autostart c);
     beepOnSuccess := or_else (o_beepOnSuccess o) (beepOnSuccess c);
     vibrateOnSuccess := or_else (o_vibrateOnSuccess o) (vibrateOnSuccess c);
     codeValidTimeout := or_else (o_codeValidTimeout o) (codeValidTimeout c);
     cameraFacingMode := or_else (o_cameraFacingMode o) (cameraFacingMode c);
     selectByCode := or_else (o_selectByCode o) (selectByCode c) |}.

(** A [MediaStream] handed out by [getUserMedia], named by a number. *)
Definition Stream := nat.

Record Point := mkPoint { px : Z; py : Z }.

(** [code.location] of a jsQR result; only handed on to the canvas. *)
Record Location := mkLocation {
  topLeftCorner : Point;
  topRightCorner : Point;
  bottomRightCorner : Point;
  bottomLeftCorner : Point
}.

(** What [jsQR] does on the pixels of the current frame. *)
Inductive ScanResult :=
| ScanThrows (e : string)
| ScanNone
| ScanCode (data : string) (location : Location).

(** The video element as a tick finds it. *)
Record Frame := mkFrame {
  enoughData : bool;          (* video.readyState === video.HAVE_ENOUGH_DATA *)
  videoWidth : Z;
  videoHeight : Z;
  scan : ScanResult
}.

(** The record the lookup service answers with; opaque to the scanner. *)
Record Product := mkProduct {
  prod_id : Z;
  nome : string;
  codigo : string;
  preco : Z;
  estoque : Z
}.

Inductive Body :=
| BadJson (e : string)              (* response.json() rejects *)
| Json (p : option Product).        (* [None] is the JSON value null *)

Inductive Response :=
| NetworkError (e : string)         (* the fetch promise rejects *)
| Http (status : Z) (body : Body).

(** [response.ok] *)
Definition response_ok (status : Z) : bool :=
  (200 <=? status) && (status <=? 299).

(** How [getUserMedia] settles. *)
Inductive MediaResult :=
| MediaGranted
| MediaDenied (message : string).

(** The global [app] the module refers to without declaring it. *)
Inductive App :=
| AppUndeclared
| AppNullish
| AppObject (hasNotify hasFormatMoney : bool).

(** What the page and the browser provide. *)
Record Browser := mkBrowser {
  hasCanvas : bool;         (* document.getElementById('canvas') *)
  hasOutput : bool;         (* the output and loadingMessage elements *)
  hasMediaDevices : bool;   (* navigator.mediaDevices.getUserMedia *)
  hasVibrate : bool;        (* navigator.vibrate *)
  hasSelectProduct : bool;  (* typeof window.selectProduct === 'function' *)
  hasProductInfo : bool;    (* document.getElementById('product-info') *)
  app : App
}.

Inductive Elem :=
| LoadingMessage | OutputMessage | OutputData | OutputDataParent
| CanvasElement | ScannerContainer | ProductInfo.

(** Everything the module does to the outside, in the order it does it. *)
Inductive Action :=
| SetText (el : Elem) (text : string)
| SetHidden (el : Elem) (hidden : bool)
| SetDisplay (el : Elem) (display : string)
| ResizeCanvas (width height : Z)
| DrawImage
| DrawOutline (location : Location)
| PlayBeep
| Vibrate (ms : Z)
| GetUserMedia (facingMode : string)
| VideoPlay (s : Stream)
| TrackStop (s : Stream)
| HttpGet (url : string)
| ShowProductCard (p : Product)
| SelectProduct (p : option Product)
| Notify (message level : string).

Inductive Level := LevelLog | LevelError.

(** The module-level variables of the closure. *)
Record Vars := mkVars {
  activeStream : option Stream;
  isScanning : bool;
  lastResult : string;
  countResults : Z;
  lastCodeFound : Z;
  config : Config
}.

(** The host: clock, camera, event-loop queues, page and console. *)
Record Host := mkHost {
  clock : Z;                      (* Date.now() *)
  liveStreams : list Stream;      (* streams whose tracks are not stopped *)
  nextStream : Stream;
  pendingMedia : nat;             (* getUserMedia promises not yet settled *)
  pendingTicks : nat;             (* scheduled calls of tick *)
  pendingLookups : list string;   (* fetches not yet settled, by barcode *)
  screen : list Action;
  console : list (Level * string);
  browser : Browser
}.

Record World := mkWorld { vars : Vars; host : Host }.

(** ** Field updates *)

Definition set_activeStream (x : option Stream) (v : Vars) : Vars :=
  mkVars x (isScanning v) (lastResult v) (countResults v) (lastCodeFound v) (config v).
Definition set_isScanning (x : bool) (v : Vars) : Vars :=
  mkVars (activeStream v) x (lastResult v) (countResults v) (lastCodeFound v) (config v).
Definition set_lastResult (x : string) (v : Vars) : Vars :=
  mkVars (activeStream v) (isScanning v) x (countResults v) (lastCodeFound v) (config v).
Definition set_countResults (x : Z) (v : Vars) : Vars :=
  mkVars (activeStream v) (isScanning v) (lastResult v) x (lastCodeFound v) (config v).
Definition set_lastCodeFound (x : Z) (v : Vars) : Vars :=
  mkVars (activeStream v) (isScanning v) (lastResult v) (countResults v) x (config v).
Definition set_config (x : Config) (v : Vars) : Vars :=
  mkVars (activeStream v) (isScanning v) (lastResult v) (countResults v) (lastCodeFound v) x.

Definition set_clock (x : Z) (h : Host) : Host :=
  mkHost x (liveStreams h) (nextStream h) (pendingMedia h) (pendingTicks h)
         (pendingLookups h) (screen h) (console h) (browser h).
Definition set_streams (l : list Stream) (n : Stream) (h : Host) : Host :=
  mkHost (clock h) l n (pendingMedia h) (pendingTicks h)
         (pendingLookups h) (screen h) (console h) (browser h).
Definition set_pendingMedia (x : nat) (h : Host) : Host :=
  mkHost (clock h) (liveStreams h) (nextStream h) x (pendingTicks h)
         (pendingLookups h) (screen h) (console h) (browser h).
Definition set_pendingTicks (x : nat) (h : Host) : Host :=
  mkHost (clock h) (liveStreams h) (nextStream h) (pendingMedia h) x
         (pendingLookups h) (screen h) (console h) (browser h).
Definition set_pendingLookups (x : list string) (h : Host) : Host :=
  mkHost (clock h) (liveStreams h) (nextStream h) (pendingMedia h) (pendingTicks h)
         x (screen h) (console h) (browser h).
Definition set_screen (x : list Action) (h : Host) : Host :=
  mkHost (clock h) (liveStreams h) (nextStream h) (pendingMedia h) (pendingTicks h)
         (pendingLookups h) x (console h) (browser h).
Definition set_console (x : list (Level * string)) (h : Host) : Host :=
  mkHost (clock h) (liveStreams h) (nextStream h) (pendingMedia h) (pendingTicks h)
         (pendingLookups h) (screen h) x (browser h).

Definition on_vars (f : Vars -> Vars) (w : World) : World :=
  mkWorld (f (vars w)) (host w).
Definition on_host (f : Host -> Host) (w : World) : World :=
  mkWorld (vars w) (f (host w)).

(** ** The monad of function bodies: world passing with exceptions *)

Inductive Outcome (A : Type) :=
| Return (a : A)
| Throw (e : string).
Arguments Return {A} a.
Arguments Throw {A} e.

Definition M (A : Type) : Type := World -> Outcome A * World.

Definition ret {A : Type} (a : A) : M A := fun w => (Return a, w).

Definition bind {A B : Type} (m : M A) (k : A -> M B) : M B :=
  fun w =>
    match m w with
    | (Return a, w') => k a w'
    | (Throw e, w') => (Throw e, w')
    end.

Definition throw {A : Type} (e : string) : M A := fun w => (Throw e, w).

(** [try { m } catch (e) { handler e }]: what [m] did before it threw stays done. *)
Definition try_catch {A : Type} (m : M A) (handler : string -> M A) : M A :=
  fun w =>
    match m w with
    | (Return a, w') => (Return a, w')
    | (Throw e, w') => handler e w'
    end.

Definition read {A : Type} (f : World -> A) : M A := fun w => (Return (f w), w).
Definition update (f : World -> World) : M unit := fun w => (Return tt, f w).

Declare Scope js_scope.
Delimit Scope js_scope with js.
Notation "x <- m ;; k" := (bind m (fun x => k))
  (at level 61, m at next level, right associativity) : js_scope.
Notation "m ;; k" := (bind m (fun _ => k))
  (at level 61, right associativity) : js_scope.
Open Scope js_scope.

(** The world a computation leaves, and what it returned or threw. *)
Definition exec {A : Type} (m : M A) (w : World) : World := snd (m w).
Definition result {A : Type} (m : M A) (w : World) : Outcome A := fst (m w).

(** ** Host primitives *)

Definition var {A : Type} (f : Vars -> A) : M A := read (fun w => f (vars w)).
Definition assign_var (f : Vars -> Vars) : M unit := update (on_vars f).

Definition date_now : M Z := read (fun w => clock (host w)).
Definition the_browser : M Browser := read (fun w => browser (host w)).

Definition emit (a : Action) : M unit :=
  update (on_host (fun h => set_screen (screen h ++ [a])%list h)).

Definition console_log (s : string) : M unit :=
  update (on_host (fun h => set_console (console h ++ [(LevelLog, s)])%list h)).
Definition console_error (s : string) : M unit :=
  update (on_host (fun h => set_console (console h ++ [(LevelError, s)])%list h)).

(** [requestAnimationFrame(tick)], directly or from the [setTimeout] callback. *)
Definition schedule_tick : M unit :=
  update (on_host (fun h => set_pendingTicks (S (pendingTicks h)) h)).

(** The call [navigator.mediaDevices.getUserMedia(constraints)]. *)
Definition get_user_media (facingMode : string) : M unit :=
  emit (GetUserMedia facingMode);;
  update (on_host (fun h => set_pendingMedia (S (pendingMedia h)) h)).

(** The camera opens: a fresh stream with running tracks. *)
Definition open_stream : M Stream :=
  fun w =>
    let h := host w in
    let s := nextStream h in
    (Return s, on_host (set_streams (s :: liveStreams h) (S s)) w).

Definition remove_stream (s : Stream) (l : list Stream) : list Stream :=
  filter (fun x => negb (Nat.eqb x s)) l.

(** [stream.getTracks().forEach(track => track.stop())] *)
Definition stop_tracks (s : Stream) : M unit :=
  emit (TrackStop s);;
  update (on_host (fun h => set_streams (remove_stream s (liveStreams h)) (nextStream h) h)).

(** The call [fetch(url)] for [barcode]. *)
Definition http_get (barcode : string) : M unit :=
  emit (HttpGet ("/api/produtos/barcode/" ++ barcode));;
  update (on_host (fun h => set_pendingLookups (pendingLookups h ++ [barcode])%list h)).

Definition string_of_Z (z : Z) : string := NilZero.string_of_int (Z.to_int z).

(** ** The functions of the module *)

(** The [catch (err)] block of [start]. *)
Definition start_catch (message : string) : M unit :=
  console_error ("Erro ao iniciar scanner: " ++ message);;
  emit (SetText OutputMessage ("Erro ao acessar câmera: " ++ message));;
  emit (SetText LoadingMessage "").

(** [start], up to [await navigator.mediaDevices.getUserMedia(constraints)].
    Where the browser has no [navigator.mediaDevices] the call itself throws
    inside the [try]. *)
Definition start_begin : M unit :=
  assign_var (set_isScanning true);;
  assign_var (set_lastResult "");;
  try_catch
    (b <- the_browser;;
     if hasMediaDevices b then
       cfg <- var config;;
       get_user_media (cameraFacingMode cfg)
     else throw "navigator.mediaDevices is undefined")
    start_catch.

(** [start], from the point where the [getUserMedia] promise has settled. *)
Definition start_resume (r : MediaResult) : M unit :=
  try_catch
    (match r with
     | MediaDenied message => throw message
     | MediaGranted =>
         stream <- open_stream;;
         assign_var (set_activeStream (Some stream));;
         emit (VideoPlay stream);;
         schedule_tick;;
         emit (SetText LoadingMessage "Iniciando câmera...");;
         emit (SetDisplay ScannerContainer "block");;
         console_log "Scanner iniciado com sucesso"
     end)
    start_catch.

Definition stop : M unit :=
  assign_var (set_isScanning false);;
  active <- var activeStream;;
  match active with
  | Some stream =>
      stop_tracks stream;;
      assign_var (set_activeStream None)
  | None => ret tt
  end;;
  emit (SetDisplay ScannerContainer "none");;
  console_log "Scanner parado".

(** [fetchProductByBarcode], up to [await fetch(...)]. *)
Definition fetchProductByBarcode (barcode : string) : M unit :=
  emit (SetText OutputMessage "Buscando produto...");;
  emit (SetHidden OutputMessage false);;
  http_get barcode.

Definition displayProduct (product : option Product) : M unit :=
  match product with
  | None => ret tt
  | Some p =>
      b <- the_browser;;
      (if hasProductInfo b then
         match app b with
         | AppObject _ true =>
             emit (ShowProductCard p);;
             emit (SetDisplay ProductInfo "block")
         | AppObject _ false => throw "app.formatMoney is not a function"
         | AppNullish => throw "cannot read properties of undefined (reading 'formatMoney')"
         | AppUndeclared => throw "app is not defined"
         end
       else ret tt);;
      emit (SetHidden OutputMessage true)
  end.

(** The [catch (error)] block of [fetchProductByBarcode]. *)
Definition fetch_catch (barcode error : string) : M (option Product) :=
  console_error ("Erro ao buscar produto: " ++ error);;
  emit (SetText OutputMessage ("Produto não encontrado: " ++ barcode));;
  emit (SetHidden OutputMessage false);;
  emit (SetHidden OutputDataParent true);;
  b <- the_browser;;
  match app b with
  | AppUndeclared => throw "app is not defined"
  | AppNullish => ret None
  | AppObject hasNotify _ =>
      (if hasNotify
       then emit (Notify ("Produto não encontrado: " ++ barcode) "error")
       else ret tt);;
      ret None
  end.

(** [fetchProductByBarcode], from the point where the fetch has settled. *)
Definition fetch_resume (barcode : string) (r : Response) : M (option Product) :=
  try_catch
    (match r with
     | NetworkError e => throw e
     | Http status body =>
         if negb (response_ok status) then
           throw ("HTTP error " ++ string_of_Z status)
         else
           match body with
           | BadJson e => throw e
           | Json product =>
               displayProduct product;;
               cfg <- var config;;
               b <- the_browser;;
               (if selectByCode cfg && hasSelectProduct b
                then emit (SelectProduct product)
                else ret tt);;
               ret product
           end
     end)
    (fetch_catch barcode).

Definition processCode (code : string) : M unit :=
  now <- date_now;;
  last <- var lastResult;;
  found <- var lastCodeFound;;
  cfg <- var config;;
  if negb (String.eqb code last) || (codeValidTimeout cfg <? now - found) then
    assign_var (set_lastResult code);;
    assign_var (set_lastCodeFound now);;
    (if beepOnSuccess cfg then emit PlayBeep else ret tt);;
    b <- the_browser;;
    (if vibrateOnSuccess cfg && hasVibrate b then emit (Vibrate 100) else ret tt);;
    emit (SetHidden OutputMessage true);;
    emit (SetHidden OutputDataParent false);;
    emit (SetText OutputData code);;
    fetchProductByBarcode code;;
    console_log ("Código encontrado: " ++ code)
  else ret tt.

Definition drawCodeOutline (location : Location) : M unit :=
  emit (DrawOutline location).

(** [decodeBarcode] on the frame just drawn; [ScanThrows] stands for a throw
    of [canvas.getImageData] or of [jsQR]. *)
Definition decodeBarcode (fr : Frame) : M unit :=
  try_catch
    (match scan fr with
     | ScanThrows e => throw e
     | ScanNone => ret tt
     | ScanCode data location =>
         drawCodeOutline location;;
         processCode data
     end)
    (fun e => console_error ("Erro ao decodificar código: " ++ e)).

Definition tick (fr : Frame) : M unit :=
  scanning <- var isScanning;;
  if negb scanning then ret tt else
  cfg <- var config;;
  now <- date_now;;
  found <- var lastCodeFound;;
  if (0 <? scanTimeout cfg) && (scanTimeout cfg <? now - found) then
    console_log "Scanner timeout - desligando";;
    stop
  else
    emit (SetText LoadingMessage "");;
    (if enoughData fr then
       emit (SetHidden CanvasElement false);;
       emit (SetHidden LoadingMessage true);;
       emit (ResizeCanvas (videoWidth fr) (videoHeight fr));;
       emit DrawImage;;
       try_catch
         (count <- var countResults;;
          if Z.rem count 10 =? 0 then decodeBarcode fr else ret tt)
         (fun e => console_error ("Erro ao decodificar: " ++ e));;
       count <- var countResults;;
       assign_var (set_countResults (count + 1))
     else ret tt);;
    schedule_tick.

Definition init (options : Options) : M bool :=
  console_log "Inicializando Scanner de Código de Barras v3.0";;
  cfg <- var config;;
  assign_var (set_config (assign cfg options));;
  b <- the_browser;;
  if negb (hasCanvas b) then throw "cannot read properties of null (reading 'getContext')"
  else if negb (hasOutput b) then
    console_error "Elementos de scanner não encontrados no DOM";;
    ret false
  else if hasMediaDevices b then
    cfg <- var config;;
    (if autostart cfg then start_begin else ret tt);;
    ret true
  else
    console_error "Navegador não suporta acesso à câmera";;
    emit (SetText OutputMessage "Seu dispositivo não suporta acesso à câmera.");;
    emit (SetText LoadingMessage "");;
    ret false.

(** The variables as the module body leaves them, loaded at time [t0]. *)
Definition initial_vars (t0 : Z) : Vars :=
  {| activeStream := None;
     isScanning := false;
     lastResult := "";
     countResults := 0;
     lastCodeFound := t0;
     config := default_config |}.

Definition initial_host (t0 : Z) (b : Browser) : Host :=
  {| clock := t0;
     liveStreams := [];
     nextStream := 0%nat;
     pendingMedia := 0%nat;
     pendingTicks := 0%nat;
     pendingLookups := [];
     screen := [];
     console := [];
     browser := b |}.

Definition initial_world (t0 : Z) (b : Browser) : World :=
  mkWorld (initial_vars t0) (initial_host t0 b).

(** The public accessors [getLastCode] and [isActive]. *)
Definition getLastCode (w : World) : string := lastResult (vars w).
Definition isActive (w : World) : bool := isScanning (vars w).

(** ** The event loop *)

(** What can happen next: a call of the public API, or a callback the module
    has registered with the host. *)
Inductive Event :=
| CallInit (options : Options)
| CallStart
| CallStop
| CallLookup (barcode : string)         (* fetchProductByBarcode, called from outside *)
| MediaSettles (r : MediaResult)        (* a pending getUserMedia settles *)
| TickRuns (fr : Frame)                 (* a scheduled tick runs *)
| LookupSettles (i : nat) (r : Response). (* the i-th pending fetch settles *)

Fixpoint remove_nth {A : Type} (i : nat) (l : list A) : list A :=
  match l, i with
  | [], _ => []
  | _ :: r, O => r
  | a :: r, S j => a :: remove_nth j r
  end.

(** One turn of the event loop at time [t]. [None]: the event cannot happen
    in [w] (nothing is pending for it). What a callback returns or throws
    goes to the host and is dropped. *)
Definition step (w : World) (te : Z * Event) : option World :=
  let w := on_host (set_clock (fst te)) w in
  match snd te with
  | CallInit options => Some (exec (init options) w)
  | CallStart => Some (exec start_begin w)
  | CallStop => Some (exec stop w)
  | CallLookup barcode => Some (exec (fetchProductByBarcode barcode) w)
  | MediaSettles r =>
      match pendingMedia (host w) with
      | O => None
      | S n => Some (exec (start_resume r) (on_host (set_pendingMedia n) w))
      end
  | TickRuns fr =>
      match pendingTicks (host w) with
      | O => None
      | S n => Some (exec (tick fr) (on_host (set_pendingTicks n) w))
      end
  | LookupSettles i r =>
      match nth_error (pendingLookups (host w)) i with
      | None => None
      | Some barcode =>
          Some (exec (fetch_resume barcode r)
                     (on_host (fun h => set_pendingLookups (remove_nth i (pendingLookups h)) h) w))
      end
  end.

Fixpoint run (w : World) (evs : list (Z * Event)) : option World :=
  match evs with
  | [] => Some w
  | te :: rest =>
      match step w te with
      | Some w' => run w' rest
      | None => None
      end
  end.

(** ** Observations *)

(** The lookups dispatched so far: the barcodes' request URLs, oldest first. *)
Fixpoint requests (l : list Action) : list string :=
  match l with
  | [] => []
  | HttpGet url :: r => url :: requests r
  | _ :: r => requests r
  end.

Definition dispatched (w : World) : list string := requests (screen (host w)).

Definition lookup_url (code : string) : string := "/api/produtos/barcode/" ++ code.

(** The feedback a confirmed code gets under configuration [cfg]. *)
Definition feedback (cfg : Config) (b : Browser) : list Action :=
  ((if beepOnSuccess cfg then [PlayBeep] else []) ++
   (if vibrateOnSuccess cfg && hasVibrate b then [Vibrate 100] else []))%list.

(** What a confirmed code puts on the page and the network, feedback first. *)
Definition confirmation (cfg : Config) (b : Browser) (code : string) : list Action :=
  (feedback cfg b ++
   [SetHidden OutputMessage true;
    SetHidden OutputDataParent false;
    SetText OutputData code;
    SetText OutputMessage "Buscando produto...";
    SetHidden OutputMessage false;
    HttpGet (lookup_url code)])%list.

(** A decode candidate at time [t]: [processCode] called with the clock at [t]. *)
Definition candidate_at (w : World) (tc : Z * string) : World :=
  exec (processCode (snd tc)) (on_host (set_clock (fst tc)) w).

(** A page with every optional piece present. *)
Definition full_browser : Browser :=
  {| hasCanvas := true; hasOutput := true; hasMediaDevices := true;
     hasVibrate := true; hasSelectProduct := true; hasProductInfo := true;
     app := AppObject true true |}.

Definition no_location : Location :=
  let o := mkPoint 0 0 in mkLocation o o o o.

Definition frame_with (s : ScanResult) : Frame :=
  {| enoughData := true; videoWidth := 1280; videoHeight := 720; scan := s |}.

(** ** The specification's conditions, scenarios and proof tools *)

(** The condition of the debounce filter as the specification words it. *)
Definition accepted (code : string) (w : World) : Prop :=
  code <> lastResult (vars w) \/
  clock (host w) - lastCodeFound (vars w) > codeValidTimeout (config (vars w)).

(** The condition of the idle watchdog as the specification words it. *)
Definition idle (w : World) : Prop :=
  scanTimeout (config (vars w)) > 0 /\
  clock (host w) - lastCodeFound (vars w) > scanTimeout (config (vars w)).

Ltac open_world w :=
  let v := fresh "v" in
  let h := fresh "h" in
  destruct w as [v h]; destruct v; destruct h.

Ltac js_unfold :=
  unfold candidate_at, dispatched, getLastCode, isActive, exec, result,
    tick, decodeBarcode, drawCodeOutline, processCode, fetchProductByBarcode,
    fetch_resume, fetch_catch, displayProduct, stop, start_resume, start_begin,
    start_catch, init, http_get, stop_tracks, open_stream, get_user_media,
    schedule_tick, console_error, console_log, emit, the_browser, date_now,
    assign_var, var, update, read, try_catch, throw, bind, ret in *.

Ltac js := js_unfold; cbn in *.

(** What a tick puts on the page before it decodes a ready frame. *)
Definition frame_actions (fr : Frame) : list Action :=
  [SetText LoadingMessage "";
   SetHidden CanvasElement false;
   SetHidden LoadingMessage true;
   ResizeCanvas (videoWidth fr) (videoHeight fr);
   DrawImage].

Definition draw (l : list Action) (w : World) : World :=
  on_host (fun h => set_screen (screen h ++ l)%list h) w.

(** The end of a tick that sampled a frame: count it, schedule the next. *)
Definition tick_end (w : World) : World :=
  on_host (fun h => set_pendingTicks (S (pendingTicks h)) h)
    (on_vars (fun v => set_countResults (countResults v + 1) v) w).

(** Whether the candidate [tc] fed to [w] caused a dispatch. *)
Definition confirms (w : World) (tc : Z * string) : bool :=
  negb (List.length (dispatched (candidate_at w tc)) =? List.length (dispatched w))%nat.

(** The candidates of a stream that were confirmed, in order. *)
Fixpoint confirmed_events (w : World) (stream : list (Z * string)) : list (Z * string) :=
  match stream with
  | [] => []
  | tc :: rest =>
      (if confirms w tc then [tc] else []) ++ confirmed_events (candidate_at w tc) rest
  end%list.

(** Case analysis on an innermost scrutinee of the goal: a condition or a
    matched value that contains no further [match]. *)
Ltac break_if :=
  match goal with
  | |- context [match ?x with _ => _ end] =>
      lazymatch x with
      | context [match _ with _ => _ end] => fail
      | _ => destruct x eqn:?
      end
  end.

(** Events that call [start]: the public [start] and [init] (auto start). *)
Definition may_start (ev : Event) : bool :=
  match ev with
  | CallStart | CallInit _ => true
  | _ => false
  end.

Definition no_start (evs : list (Z * Event)) : bool :=
  forallb (fun te => negb (may_start (snd te))) evs.

(** The barcodes looked up by calling [fetchProductByBarcode] from outside. *)
Fixpoint manual_lookups (evs : list (Z * Event)) : list string :=
  match evs with
  | [] => []
  | (_, CallLookup barcode) :: rest => barcode :: manual_lookups rest
  | _ :: rest => manual_lookups rest
  end.

(** The world after [evs], where they can all happen. *)
Definition after (evs : list (Z * Event)) (w : World) : World :=
  match run w evs with
  | Some w' => w'
  | None => w
  end.

(** The page just loaded at time 0, scanner started and camera granted. *)
Definition started_world : World :=
  Eval vm_compute in
    after [(0, CallStart); (0, MediaSettles MediaGranted)] (initial_world 0 full_browser).

Definition frame_A : Frame := frame_with (ScanCode "A" no_location).

(** Two worlds that differ on the console at most. *)
Definition same_but_console (w1 w2 : World) : Prop :=
  vars w1 = vars w2 /\ set_console [] (host w1) = set_console [] (host w2).

(** The streams as the module and the host see them. *)
Definition streams_of (w : World) : option Stream * list Stream * Stream :=
  (activeStream (vars w), liveStreams (host w), nextStream (host w)).

(** The stream invariant: the streams handed out are numbered below
    [nextStream], no live stream is listed twice, and the stream the module
    tracks is live. *)
Definition streams_ok (w : World) : Prop :=
  (forall s, In s (liveStreams (host w)) -> (s < nextStream (host w))%nat) /\
  NoDup (liveStreams (host w)) /\
  (forall s, activeStream (vars w) = Some s -> In s (liveStreams (host w))).

(** A run of ticks only. *)
Definition ticks (frames : list (Z * Frame)) : list (Z * Event) :=
  map (fun tf => (fst tf, TickRuns (snd tf))) frames.

(** What the page shows for a lookup that failed. *)
Definition not_found_actions (barcode : string) (b : Browser) : list Action :=
  ([SetText OutputMessage ("Produto não encontrado: " ++ barcode)%string;
    SetHidden OutputMessage false;
    SetHidden OutputDataParent true] ++
   match app b with
   | AppObject true _ => [Notify ("Produto não encontrado: " ++ barcode)%string "error"]
   | _ => []
   end)%list.

(** A lookup that did not succeed: the transport failed, or the status is
    outside 200..299. *)
Definition lookup_failed (r : Response) : Prop :=
  match r with
  | NetworkError _ => True
  | Http status _ => ~ (200 <= status <= 299)
  end.

(** The started scanner, 6000 ms after its last code. *)
Definition idle_world : World := on_host (set_clock 6000) started_world.

(** The started scanner with the lookup of 123 in flight. *)
Definition looking_up_123 : World := exec (fetchProductByBarcode "123") started_world.

(** Start, camera granted, start again, camera granted again. *)
Definition start_twice : list (Z * Event) :=
  [(0, CallStart); (0, MediaSettles MediaGranted);
   (10, CallStart); (10, MediaSettles MediaGranted)].

(** A browser without [navigator.mediaDevices]. *)
Definition old_browser : Browser :=
  {| hasCanvas := true; hasOutput := true; hasMediaDevices := false;
     hasVibrate := false; hasSelectProduct := false; hasProductInfo := false;
     app := AppNullish |}.

(** The scanner idles out, is started again at 9000 ms, and its first tick
    then finds code A in the frame. *)
Definition restart_after_idle : list (Z * Event) :=
  [(0, CallStart); (10, MediaSettles MediaGranted);
   (5011, TickRuns (frame_with ScanNone));
   (9000, CallStart); (9010, MediaSettles MediaGranted);
   (9020, TickRuns frame_A)].

(** Ten ticks at 0, 100, ..., 900 ms with code A in every frame (the first
    one decodes), then the eleventh at 1000 ms, which decodes again. *)
Definition eleven_ticks : list (Z * Event) :=
  ticks (map (fun i => (100 * Z.of_nat i, frame_A)) (seq 0 11)).

(** The started scanner 100 ms after it confirmed code A. *)
Definition just_confirmed_A : World :=
  on_host (set_clock 100) (exec (processCode "A") started_world).

(** ** The page gate: the [DOMContentLoaded] listener *)

(** [s.split(sep)] for a one-character separator. *)
Fixpoint split_on (sep : Ascii.ascii) (s : string) : list string :=
  match s with
  | EmptyString => [EmptyString]
  | String c rest =>
      if Ascii.eqb c sep then EmptyString :: split_on sep rest
      else
        match split_on sep rest with
        | piece :: pieces => String c piece :: pieces
        | [] => [String c EmptyString]
        end
  end.

Fixpoint drop (n : nat) (s : string) : string :=
  match n, s with
  | O, _ => s
  | S m, EmptyString => EmptyString
  | S m, String _ rest => drop m rest
  end.

(** [s.replace(pat, rep)] with a string pattern: the first occurrence only. *)
Fixpoint replace_first (pat rep s : string) : string :=
  if String.prefix pat s then (rep ++ drop (String.length pat) s)%string
  else
    match s with
    | EmptyString => EmptyString
    | String c rest => String c (replace_first pat rep rest)
    end.

(** The character [/]. *)
Definition slash : Ascii.ascii :=
  Eval cbv in match "/" with String c _ => c | EmptyString => Ascii.zero end.

(** [pathname.split('/').pop().replace('.html', '')] *)
Definition page_name (pathname : string) : string :=
  replace_first ".html" "" (last (split_on slash pathname) "").

(** [['scan', 'venda-nova'].includes(...)] *)
Definition isValidPage (pathname : string) : bool :=
  existsb (String.eqb (page_name pathname)) ["scan"; "venda-nova"].

(** The options the listener passes to [init]. *)
Definition page_options : Options :=
  {| o_scanInterval := None;
     o_scanTimeout := None;
     o_autostart := Some true;
     o_beepOnSuccess := Some true;
     o_vibrateOnSuccess := Some true;
     o_codeValidTimeout := None;
     o_cameraFacingMode := None;
     o_selectByCode := Some true |}.

(** The listener; it returns whether it went on to publish the module as
    [window.BarcodeScanner]. *)
Definition on_dom_content_loaded (pathname : string) : M bool :=
  if isValidPage pathname then
    init page_options;;
    ret true
  else ret false.

(** ** Vocabulary of the further properties *)

(** Every candidate of the stream differs from the one before it, the first
    one from [prev]. *)
Fixpoint distinct_neighbours (prev : string) (stream : list (Z * string)) : Prop :=
  match stream with
  | [] => True
  | tc :: rest => snd tc <> prev /\ distinct_neighbours (snd tc) rest
  end.

(** What [init] returns or throws, read off its three tests. *)
Definition init_outcome (b : Browser) : Outcome bool :=
  if negb (hasCanvas b) then Throw "cannot read properties of null (reading 'getContext')"
  else if negb (hasOutput b) then Return false
  else if hasMediaDevices b then Return true
  else Return false.

(** The product card can be rendered: there is no product-info element to
    fill, or [app.formatMoney] is there. *)
Definition can_render (b : Browser) : bool :=
  negb (hasProductInfo b) ||
  match app b with
  | AppObject _ true => true
  | _ => false
  end.

(** What the page shows for a product that was found. *)
Definition found_actions (cfg : Config) (b : Browser) (p : Product) : list Action :=
  ((if hasProductInfo b then [ShowProductCard p; SetDisplay ProductInfo "block"] else []) ++
   [SetHidden OutputMessage true] ++
   (if selectByCode cfg && hasSelectProduct b then [SelectProduct (Some p)] else []))%list.

(** A started scanner whose browser lacks [app.formatMoney]. *)
Definition no_money_browser : Browser :=
  {| hasCanvas := true; hasOutput := true; hasMediaDevices := true;
     hasVibrate := true; hasSelectProduct := true; hasProductInfo := true;
     app := AppObject true false |}.

Definition sample_product : Product :=
  {| prod_id := 7; nome := "Cafe"; codigo := "123"; preco := 1990; estoque := 4 |}.

(** The page loaded, [start] called and [stop] called before the camera
    prompt is answered. *)
Definition stopped_before_grant : World :=
  Eval vm_compute in after [(0, CallStart); (5, CallStop)] (initial_world 0 full_browser).

(** The started scanner after its first frame, with [countResults] at 1. *)
Definition after_first_frame : World :=
  Eval vm_compute in after [(0, TickRuns (frame_with ScanNone))] started_world.

(** The scanner of a page without [app.formatMoney], lookup of 123 in flight. *)
Definition looking_up_no_money : World :=
  Eval vm_compute in
    exec (fetchProductByBarcode "123")
      (after [(0, CallStart); (0, MediaSettles MediaGranted)]
         (initial_world 0 no_money_browser)).

(** * Properties *)

Lemma vars_ext (v1 v2 : Vars) :
  activeStream v1 = activeStream v2 -> isScanning v1 = isScanning v2 ->
  lastResult v1 = lastResult v2 -> countResults v1 = countResults v2 ->
  lastCodeFound v1 = lastCodeFound v2 -> config v1 = config v2 ->
  v1 = v2.
Proof.
  destruct v1, v2. cbn. intros. subst. reflexivity.
Qed.

Lemma host_ext (h1 h2 : Host) :
  clock h1 = clock h2 -> liveStreams h1 = liveStreams h2 ->
  nextStream h1 = nextStream h2 -> pendingMedia h1 = pendingMedia h2 ->
  pendingTicks h1 = pendingTicks h2 -> pendingLookups h1 = pendingLookups h2 ->
  screen h1 = screen h2 -> console h1 = console h2 -> browser h1 = browser h2 ->
  h1 = h2.
Proof.
  destruct h1, h2. cbn. intros. subst. reflexivity.
Qed.

Lemma world_ext (w1 w2 : World) :
  vars w1 = vars w2 -> host w1 = host w2 -> w1 = w2.
Proof.
  destruct w1, w2. cbn. intros. subst. reflexivity.
Qed.

(** Two worlds are equal when their fields are, lists compared up to the
    bracketing of appends. *)
Ltac world_eq :=
  apply world_ext; [apply vars_ext | apply host_ext];
  cbn; repeat rewrite <- app_assoc; reflexivity.

Lemma accepted_dec (code : string) (w : World) :
  negb (String.eqb code (lastResult (vars w)))
  || (codeValidTimeout (config (vars w)) <? clock (host w) - lastCodeFound (vars w)) = true
  <-> accepted code w.
Proof.
  unfold accepted.
  rewrite orb_true_iff, negb_true_iff, Z.ltb_lt.
  destruct (String.eqb_spec code (lastResult (vars w))); split; intros [H | H];
    try congruence; try lia; auto.
Qed.

Lemma processCode_accept (w : World) (code : string) :
  accepted code w ->
  exec (processCode code) w =
  mkWorld
    (set_lastCodeFound (clock (host w)) (set_lastResult code (vars w)))
    (set_console (console (host w) ++ [(LevelLog, ("Código encontrado: " ++ code)%string)])%list
       (set_pendingLookups (pendingLookups (host w) ++ [code])%list
          (set_screen
             (screen (host w) ++ confirmation (config (vars w)) (browser (host w)) code)%list
             (host w)))).
Proof.
  intros H. apply accepted_dec in H.
  open_world w. js. rewrite H. cbn.
  unfold confirmation, feedback.
  destruct (beepOnSuccess config0); cbn;
    (destruct (vibrateOnSuccess config0); cbn; [destruct (hasVibrate browser0) |]); world_eq.
Qed.

Lemma processCode_suppress (w : World) (code : string) :
  ~ accepted code w -> exec (processCode code) w = w.
Proof.
  intros H. rewrite <- accepted_dec in H. apply not_true_is_false in H.
  open_world w. js. rewrite H. reflexivity.
Qed.

Lemma requests_app (l1 l2 : list Action) :
  requests (l1 ++ l2) = (requests l1 ++ requests l2)%list.
Proof.
  induction l1 as [| a l1 IH]; [reflexivity |].
  destruct a; cbn; rewrite ?IH; reflexivity.
Qed.

Ltac requests_simpl := repeat rewrite requests_app; cbn; repeat rewrite app_nil_r.

Lemma requests_confirmation (cfg : Config) (b : Browser) (code : string) :
  requests (confirmation cfg b code) = [lookup_url code].
Proof.
  unfold confirmation, feedback.
  destruct (beepOnSuccess cfg), (vibrateOnSuccess cfg && hasVibrate b); reflexivity.
Qed.

Lemma idle_dec (w : World) :
  (0 <? scanTimeout (config (vars w)))
  && (scanTimeout (config (vars w)) <? clock (host w) - lastCodeFound (vars w)) = true
  <-> idle w.
Proof.
  unfold idle. rewrite andb_true_iff, !Z.ltb_lt. lia.
Qed.

(** A tick of the running scanner whose frame decodes to [code]: the frame is
    drawn and outlined, [processCode] sees the candidate, the tick ends. *)
Lemma tick_candidate (w : World) (fr : Frame) (code : string) (loc : Location) :
  isScanning (vars w) = true ->
  ~ idle w ->
  enoughData fr = true ->
  Z.rem (countResults (vars w)) 10 = 0 ->
  scan fr = ScanCode code loc ->
  exec (tick fr) w =
  tick_end (exec (processCode code) (draw (frame_actions fr ++ [DrawOutline loc]) w)).
Proof.
  intros Hrun Hidle Hready Hcount Hscan.
  rewrite <- idle_dec in Hidle. apply not_true_is_false in Hidle.
  apply Z.eqb_eq in Hcount.
  open_world w. cbn in *. subst. js. rewrite Hidle, Hready. cbn. rewrite Hcount, Hscan. cbn.
  destruct (negb (code =? lastResult0)%string || (codeValidTimeout config0 <? clock0 - lastCodeFound0));
    cbn.
  - unfold tick_end, draw.
    destruct (beepOnSuccess config0); cbn;
      (destruct (vibrateOnSuccess config0); cbn; [destruct (hasVibrate browser0) |]); world_eq.
  - unfold tick_end, draw. world_eq.
Qed.

Lemma candidate_at_accept (w : World) (t : Z) (code : string) :
  accepted code (on_host (set_clock t) w) ->
  vars (candidate_at w (t, code)) = set_lastCodeFound t (set_lastResult code (vars w)) /\
  confirms w (t, code) = true.
Proof.
  intros H. unfold confirms, candidate_at. cbn [fst snd].
  rewrite (processCode_accept _ _ H). split; [reflexivity |].
  unfold dispatched. cbn.
  rewrite requests_app, requests_confirmation, length_app. cbn.
  apply negb_true_iff, Nat.eqb_neq. lia.
Qed.

Lemma candidate_at_suppress (w : World) (t : Z) (code : string) :
  ~ accepted code (on_host (set_clock t) w) ->
  candidate_at w (t, code) = on_host (set_clock t) w /\
  confirms w (t, code) = false.
Proof.
  intros H. unfold confirms, candidate_at. cbn [fst snd].
  rewrite (processCode_suppress _ _ H). split; [reflexivity |].
  unfold dispatched. cbn. rewrite Nat.eqb_refl. reflexivity.
Qed.

(** The stream A, A, A at 0, 100 and 2100 ms under a 2000 ms window, fed to
    a scanner whose last result is empty: the first and the third confirm. *)
Lemma stream_AAA (w : World) :
  lastResult (vars w) = "" ->
  codeValidTimeout (config (vars w)) = 2000 ->
  confirmed_events w [(0, "A"); (100, "A"); (2100, "A")] = [(0, "A"); (2100, "A")].
Proof.
  intros Hlast Hwin.
  assert (H1 : accepted "A" (on_host (set_clock 0) w)).
  { left. cbn. rewrite Hlast. discriminate. }
  destruct (candidate_at_accept w 0 "A" H1) as [Hv1 Hc1].
  set (w1 := candidate_at w (0, "A")) in *.
  assert (H2 : ~ accepted "A" (on_host (set_clock 100) w1)).
  { unfold accepted. cbn. rewrite Hv1. cbn. rewrite Hwin. intros [H | H]; [congruence | lia]. }
  destruct (candidate_at_suppress w1 100 "A" H2) as [Hw2 Hc2].
  assert (H3 : accepted "A" (on_host (set_clock 2100) (candidate_at w1 (100, "A")))).
  { right. rewrite Hw2. cbn. rewrite Hv1. cbn. rewrite Hwin. lia. }
  destruct (candidate_at_accept _ 2100 "A" H3) as [_ Hc3].
  cbn [confirmed_events]. fold w1. rewrite Hc1, Hc2, Hc3. reflexivity.
Qed.

(** When the watchdog fires the tick is [console.log(...); stop(); return]. *)
Lemma tick_idle (w : World) (fr : Frame) :
  isScanning (vars w) = true ->
  idle w ->
  exec (tick fr) w = exec stop (exec (console_log "Scanner timeout - desligando") w).
Proof.
  intros Hrun Hidle. apply idle_dec in Hidle.
  open_world w. cbn in *. subst. js. rewrite Hidle. cbn.
  destruct activeStream0; reflexivity.
Qed.

(** A tick of the running scanner that the watchdog lets pass keeps the
    scanner running and schedules the next tick. *)
Lemma tick_not_idle (w : World) (fr : Frame) :
  isScanning (vars w) = true ->
  ~ idle w ->
  isScanning (vars (exec (tick fr) w)) = true /\
  activeStream (vars (exec (tick fr) w)) = activeStream (vars w) /\
  liveStreams (host (exec (tick fr) w)) = liveStreams (host w) /\
  pendingTicks (host (exec (tick fr) w)) = S (pendingTicks (host w)).
Proof.
  intros Hrun Hidle.
  rewrite <- idle_dec in Hidle. apply not_true_is_false in Hidle.
  open_world w. cbn in *. subst. js. rewrite Hidle. cbn.
  repeat (break_if; js); auto.
Qed.

Lemma stop_stops (w : World) :
  isScanning (vars (exec stop w)) = false /\
  activeStream (vars (exec stop w)) = None /\
  liveStreams (host (exec stop w)) =
    match activeStream (vars w) with
    | Some s => remove_stream s (liveStreams (host w))
    | None => liveStreams (host w)
    end /\
  pendingTicks (host (exec stop w)) = pendingTicks (host w) /\
  dispatched (exec stop w) = dispatched w.
Proof.
  open_world w. js.
  destruct activeStream0; cbn; repeat split; auto;
    rewrite !requests_app; cbn; rewrite !app_nil_r; reflexivity.
Qed.

Lemma tick_stopped (w : World) (fr : Frame) :
  isScanning (vars w) = false ->
  exec (tick fr) w = w /\ result (tick fr) w = Return tt.
Proof.
  intros H. open_world w. cbn in *. subst. js. split; reflexivity.
Qed.

(** The settled lookup touches the page only: no variable of the module, no
    queue of the event loop, no stream, and it sends no request. *)
Lemma fetch_resume_quiet (w : World) (barcode : string) (r : Response) :
  vars (exec (fetch_resume barcode r) w) = vars w /\
  dispatched (exec (fetch_resume barcode r) w) = dispatched w /\
  pendingLookups (host (exec (fetch_resume barcode r) w)) = pendingLookups (host w) /\
  pendingTicks (host (exec (fetch_resume barcode r) w)) = pendingTicks (host w) /\
  pendingMedia (host (exec (fetch_resume barcode r) w)) = pendingMedia (host w) /\
  liveStreams (host (exec (fetch_resume barcode r) w)) = liveStreams (host w) /\
  nextStream (host (exec (fetch_resume barcode r) w)) = nextStream (host w).
Proof.
  open_world w. destruct r as [e | status body]; js;
    repeat (break_if; js); repeat split; requests_simpl; reflexivity.
Qed.

(** The settled camera request changes [activeStream] alone among the
    variables, and sends no lookup. *)
Lemma start_resume_quiet (w : World) (r : MediaResult) :
  isScanning (vars (exec (start_resume r) w)) = isScanning (vars w) /\
  lastResult (vars (exec (start_resume r) w)) = lastResult (vars w) /\
  lastCodeFound (vars (exec (start_resume r) w)) = lastCodeFound (vars w) /\
  countResults (vars (exec (start_resume r) w)) = countResults (vars w) /\
  config (vars (exec (start_resume r) w)) = config (vars w) /\
  dispatched (exec (start_resume r) w) = dispatched w /\
  pendingLookups (host (exec (start_resume r) w)) = pendingLookups (host w).
Proof.
  open_world w. destruct r; js; repeat split; requests_simpl; reflexivity.
Qed.

Lemma start_begin_vars (w : World) :
  isScanning (vars (exec start_begin w)) = true /\
  lastResult (vars (exec start_begin w)) = "" /\
  lastCodeFound (vars (exec start_begin w)) = lastCodeFound (vars w) /\
  countResults (vars (exec start_begin w)) = countResults (vars w) /\
  activeStream (vars (exec start_begin w)) = activeStream (vars w) /\
  config (vars (exec start_begin w)) = config (vars w) /\
  liveStreams (host (exec start_begin w)) = liveStreams (host w) /\
  nextStream (host (exec start_begin w)) = nextStream (host w) /\
  pendingTicks (host (exec start_begin w)) = pendingTicks (host w) /\
  dispatched (exec start_begin w) = dispatched w /\
  result start_begin w = Return tt.
Proof.
  open_world w. js. destruct (hasMediaDevices browser0); cbn;
    repeat split; requests_simpl; reflexivity.
Qed.

Lemma fetchProductByBarcode_effect (w : World) (barcode : string) :
  vars (exec (fetchProductByBarcode barcode) w) = vars w /\
  streams_of (exec (fetchProductByBarcode barcode) w) = streams_of w /\
  dispatched (exec (fetchProductByBarcode barcode) w) =
    (dispatched w ++ [lookup_url barcode])%list.
Proof.
  open_world w. unfold streams_of. js. repeat split. requests_simpl. reflexivity.
Qed.

Lemma step_stopped (w w' : World) (te : Z * Event) :
  isScanning (vars w) = false ->
  may_start (snd te) = false ->
  step w te = Some w' ->
  isScanning (vars w') = false /\
  lastResult (vars w') = lastResult (vars w) /\
  lastCodeFound (vars w') = lastCodeFound (vars w) /\
  dispatched w' = (dispatched w ++ map lookup_url (manual_lookups [te]))%list.
Proof.
  intros Hoff Hev Hstep. destruct te as [t ev]. unfold step in Hstep.
  cbn [fst snd manual_lookups map] in *.
  destruct ev as [o | | | barcode | r | fr | i r]; cbn in Hev; try discriminate;
    cbn [map]; rewrite ?app_nil_r.
  - injection Hstep as <-.
    pose proof (stop_stops (on_host (set_clock t) w)) as [H1 [_ [_ [_ H2]]]].
    split; [exact H1 |]. split; [| split; [| exact H2]].
    + open_world w. js. destruct activeStream0; reflexivity.
    + open_world w. js. destruct activeStream0; reflexivity.
  - injection Hstep as <-.
    destruct (fetchProductByBarcode_effect (on_host (set_clock t) w) barcode)
      as [Hv [_ Hd]].
    rewrite Hv, Hd. auto.
  - destruct (pendingMedia (host (on_host (set_clock t) w))) as [| n] eqn:Hp; [discriminate |].
    injection Hstep as <-.
    pose proof (start_resume_quiet (on_host (set_pendingMedia n) (on_host (set_clock t) w)) r)
      as [H1 [H2 [H3 [_ [_ [H4 _]]]]]].
    rewrite H1, H2, H3, H4. auto.
  - destruct (pendingTicks (host (on_host (set_clock t) w))) as [| n] eqn:Hp; [discriminate |].
    injection Hstep as <-.
    destruct (tick_stopped (on_host (set_pendingTicks n) (on_host (set_clock t) w)) fr Hoff)
      as [H1 _].
    rewrite H1. auto.
  - destruct (nth_error (pendingLookups (host (on_host (set_clock t) w))) i) as [code |] eqn:Hp;
      [| discriminate].
    injection Hstep as <-.
    match goal with |- context [exec (fetch_resume code r) ?x] =>
      pose proof (fetch_resume_quiet x code r) as [H1 [H2 _]] end.
    rewrite H1, H2. auto.
Qed.

Lemma run_stopped (evs : list (Z * Event)) (w w' : World) :
  isScanning (vars w) = false ->
  no_start evs = true ->
  run w evs = Some w' ->
  isScanning (vars w') = false /\
  lastResult (vars w') = lastResult (vars w) /\
  lastCodeFound (vars w') = lastCodeFound (vars w) /\
  dispatched w' = (dispatched w ++ map lookup_url (manual_lookups evs))%list.
Proof.
  revert w. induction evs as [| te evs IH]; intros w Hoff Hno Hrun.
  - injection Hrun as <-. cbn. rewrite app_nil_r. auto.
  - cbn [no_start forallb] in Hno. cbn [run] in Hrun.
    apply andb_true_iff in Hno as [Hte Hno]. apply negb_true_iff in Hte.
    destruct (step w te) as [w1 |] eqn:Hstep; [| discriminate].
    destruct (step_stopped w w1 te Hoff Hte Hstep) as [H1 [H2 [H3 H4]]].
    destruct (IH w1 H1 Hno Hrun) as [K1 [K2 [K3 K4]]].
    rewrite K2, K3, K4, H2, H3, H4, <- app_assoc, <- map_app.
    repeat split; auto.
    destruct te as [t [| | | | | |]]; reflexivity.
Qed.

Lemma decodeBarcode_returns (fr : Frame) (w : World) :
  result (decodeBarcode fr) w = Return tt.
Proof.
  open_world w. js. destruct (scan fr); cbn; repeat (break_if; js); reflexivity.
Qed.

Lemma tick_returns (fr : Frame) (w : World) :
  result (tick fr) w = Return tt.
Proof.
  open_world w. js. repeat (break_if; js); reflexivity.
Qed.

Lemma decodeBarcode_failure (fr : Frame) (e : string) (w : World) :
  scan fr = ScanThrows e ->
  exec (decodeBarcode fr) w = exec (console_error ("Erro ao decodificar código: " ++ e)) w.
Proof.
  intros H. open_world w. js. rewrite H. reflexivity.
Qed.

Lemma tick_decode_failure (w : World) (ready : bool) (vw vh : Z) (e : string) :
  same_but_console
    (exec (tick (mkFrame ready vw vh (ScanThrows e))) w)
    (exec (tick (mkFrame ready vw vh ScanNone)) w).
Proof.
  open_world w. unfold same_but_console. js.
  repeat (break_if; js); split; reflexivity.
Qed.

(** What a tick does to the filter state: nothing, unless its frame decodes
    to an accepted candidate. *)
Lemma tick_filter_state (w : World) (fr : Frame) :
  (lastResult (vars (exec (tick fr) w)) = lastResult (vars w) /\
   lastCodeFound (vars (exec (tick fr) w)) = lastCodeFound (vars w) /\
   dispatched (exec (tick fr) w) = dispatched w) \/
  (exists code loc,
     scan fr = ScanCode code loc /\ accepted code w /\ isScanning (vars w) = true /\
     lastResult (vars (exec (tick fr) w)) = code /\
     lastCodeFound (vars (exec (tick fr) w)) = clock (host w) /\
     dispatched (exec (tick fr) w) = (dispatched w ++ [lookup_url code])%list).
Proof.
  destruct (isScanning (vars w)) eqn:Hrun.
  2:{ left. destruct (tick_stopped w fr Hrun) as [-> _]. auto. }
  destruct ((0 <? scanTimeout (config (vars w)))
            && (scanTimeout (config (vars w)) <? clock (host w) - lastCodeFound (vars w)))
    eqn:Hidle.
  { left. apply idle_dec in Hidle. rewrite (tick_idle w fr Hrun Hidle).
    open_world w. js. destruct activeStream0; cbn; repeat split; requests_simpl; reflexivity. }
  assert (Hn : ~ idle w) by (rewrite <- idle_dec; congruence).
  destruct (enoughData fr) eqn:Hready.
  2:{ left. open_world w. cbn in *. subst. js. rewrite Hidle, Hready. cbn.
      repeat split; requests_simpl; reflexivity. }
  destruct (Z.rem (countResults (vars w)) 10 =? 0) eqn:Hcount.
  2:{ left. open_world w. cbn in *. subst. js. rewrite Hidle, Hready. cbn. rewrite Hcount. cbn.
      repeat split; requests_simpl; reflexivity. }
  destruct (scan fr) as [e | | code loc] eqn:Hscan.
  1, 2: left; open_world w; cbn in *; subst; js; rewrite Hidle, Hready; cbn; rewrite Hcount, Hscan; cbn;
    repeat split; requests_simpl; reflexivity.
  apply Z.eqb_eq in Hcount.
  rewrite (tick_candidate w fr code loc Hrun Hn Hready Hcount Hscan).
  set (w1 := draw (frame_actions fr ++ [DrawOutline loc]) w).
  destruct (negb (String.eqb code (lastResult (vars w1)))
            || (codeValidTimeout (config (vars w1)) <? clock (host w1) - lastCodeFound (vars w1)))
    eqn:Hacc.
  - right. apply accepted_dec in Hacc. exists code, loc.
    rewrite (processCode_accept w1 code Hacc).
    repeat split; auto.
    unfold dispatched. cbn. requests_simpl. rewrite requests_confirmation.
    rewrite ?app_nil_r. reflexivity.
  - left. assert (Hs : ~ accepted code w1) by (rewrite <- accepted_dec; congruence).
    rewrite (processCode_suppress w1 code Hs).
    repeat split; auto. unfold dispatched. cbn. requests_simpl. reflexivity.
Qed.

Lemma streams_ok_eq (w1 w2 : World) :
  streams_of w1 = streams_of w2 -> streams_ok w1 -> streams_ok w2.
Proof.
  unfold streams_of, streams_ok. intros H. injection H as -> -> ->. auto.
Qed.

Lemma stop_streams_ok (w : World) : streams_ok w -> streams_ok (exec stop w).
Proof.
  intros [Hlt [Hnd Hact]].
  destruct (stop_stops w) as [_ [Hnone [Hlive _]]].
  assert (Hnext : nextStream (host (exec stop w)) = nextStream (host w)).
  { open_world w. js. destruct activeStream0; reflexivity. }
  unfold streams_ok. rewrite Hnone, Hlive, Hnext.
  destruct (activeStream (vars w)) as [s |]; repeat split; auto; try discriminate.
  - intros x Hx. apply filter_In in Hx as [Hx _]. auto.
  - apply NoDup_filter. exact Hnd.
Qed.

Lemma start_resume_granted (w : World) :
  activeStream (vars (exec (start_resume MediaGranted) w)) = Some (nextStream (host w)) /\
  liveStreams (host (exec (start_resume MediaGranted) w)) =
    nextStream (host w) :: liveStreams (host w) /\
  nextStream (host (exec (start_resume MediaGranted) w)) = S (nextStream (host w)) /\
  pendingTicks (host (exec (start_resume MediaGranted) w)) = S (pendingTicks (host w)).
Proof.
  open_world w. js. repeat split; reflexivity.
Qed.

Lemma start_resume_denied (w : World) (message : string) :
  exec (start_resume (MediaDenied message)) w = exec (start_catch message) w /\
  result (start_resume (MediaDenied message)) w = Return tt.
Proof.
  open_world w. js. split; reflexivity.
Qed.

Lemma start_resume_streams_ok (w : World) (r : MediaResult) :
  streams_ok w -> streams_ok (exec (start_resume r) w).
Proof.
  intros [Hlt [Hnd Hact]]. destruct r as [| message].
  - destruct (start_resume_granted w) as [Ha [Hl [Hn _]]].
    unfold streams_ok. rewrite Ha, Hl, Hn. repeat split.
    + intros s [<- | Hs]; [lia |]. apply Hlt in Hs. lia.
    + constructor; [| exact Hnd]. intros Hin. apply Hlt in Hin. lia.
    + intros s Hs. injection Hs as <-. left. reflexivity.
  - apply (streams_ok_eq w); [| repeat split; auto].
    open_world w. js. reflexivity.
Qed.

Lemma tick_streams_ok (w : World) (fr : Frame) :
  streams_ok w -> streams_ok (exec (tick fr) w).
Proof.
  intros Hok.
  destruct (isScanning (vars w)) eqn:Hrun.
  2:{ destruct (tick_stopped w fr Hrun) as [-> _]. exact Hok. }
  destruct ((0 <? scanTimeout (config (vars w)))
            && (scanTimeout (config (vars w)) <? clock (host w) - lastCodeFound (vars w)))
    eqn:Hidle.
  - apply idle_dec in Hidle. rewrite (tick_idle w fr Hrun Hidle).
    apply stop_streams_ok. apply (streams_ok_eq w); [reflexivity | exact Hok].
  - assert (Hn : ~ idle w) by (rewrite <- idle_dec; congruence).
    destruct (tick_not_idle w fr Hrun Hn) as [_ [Ha [Hl _]]].
    assert (Hnext : nextStream (host (exec (tick fr) w)) = nextStream (host w)).
    { clear Ha Hl Hok Hn. open_world w. cbn in *. subst. js. rewrite Hidle. cbn.
      repeat (break_if; js); reflexivity. }
    apply (streams_ok_eq w); [| exact Hok].
    unfold streams_of. rewrite Ha, Hl, Hnext. reflexivity.
Qed.

Lemma init_effect (w : World) (o : Options) :
  streams_of (exec (init o) w) = streams_of w /\
  dispatched (exec (init o) w) = dispatched w /\
  lastCodeFound (vars (exec (init o) w)) = lastCodeFound (vars w) /\
  (getLastCode (exec (init o) w) = getLastCode w \/ getLastCode (exec (init o) w) = "").
Proof.
  open_world w. unfold streams_of. js.
  repeat (break_if; js); repeat split; requests_simpl; auto.
Qed.

Lemma step_streams_ok (w w' : World) (te : Z * Event) :
  streams_ok w -> step w te = Some w' -> streams_ok w'.
Proof.
  intros Hok Hstep. destruct te as [t ev]. unfold step in Hstep. cbn [fst snd] in *.
  assert (Hc : streams_ok (on_host (set_clock t) w)) by exact Hok.
  destruct ev as [o | | | barcode | r | fr | i r].
  - injection Hstep as <-.
    destruct (init_effect (on_host (set_clock t) w) o) as [H _].
    apply (streams_ok_eq _ _ (eq_sym H)). exact Hc.
  - injection Hstep as <-.
    destruct (start_begin_vars (on_host (set_clock t) w))
      as [_ [_ [_ [_ [Ha [_ [Hl [Hn _]]]]]]]].
    apply (streams_ok_eq (on_host (set_clock t) w)); [| exact Hc].
    unfold streams_of. rewrite Ha, Hl, Hn. reflexivity.
  - injection Hstep as <-. apply stop_streams_ok. exact Hc.
  - injection Hstep as <-.
    destruct (fetchProductByBarcode_effect (on_host (set_clock t) w) barcode) as [_ [H _]].
    apply (streams_ok_eq _ _ (eq_sym H)). exact Hc.
  - destruct (pendingMedia (host (on_host (set_clock t) w))) as [| n]; [discriminate |].
    injection Hstep as <-. apply start_resume_streams_ok. exact Hok.
  - destruct (pendingTicks (host (on_host (set_clock t) w))) as [| n]; [discriminate |].
    injection Hstep as <-. apply tick_streams_ok. exact Hok.
  - destruct (nth_error (pendingLookups (host (on_host (set_clock t) w))) i) as [code |];
      [| discriminate].
    injection Hstep as <-.
    match goal with |- context [exec (fetch_resume code r) ?x] =>
      pose proof (fetch_resume_quiet x code r) as [Hv [_ [_ [_ [_ [Hl Hn]]]]]];
      apply (streams_ok_eq x); [| exact Hok] end.
    unfold streams_of. rewrite Hv, Hl, Hn. reflexivity.
Qed.

Lemma run_streams_ok (evs : list (Z * Event)) (w w' : World) :
  streams_ok w -> run w evs = Some w' -> streams_ok w'.
Proof.
  revert w. induction evs as [| te evs IH]; intros w Hok Hrun; cbn in Hrun.
  - injection Hrun as <-. exact Hok.
  - destruct (step w te) as [w1 |] eqn:Hstep; [| discriminate].
    apply (IH w1); [| exact Hrun]. exact (step_streams_ok w w1 te Hok Hstep).
Qed.

Lemma initial_streams_ok (t0 : Z) (b : Browser) : streams_ok (initial_world t0 b).
Proof.
  repeat split; cbn; try contradiction; try discriminate. constructor.
Qed.

Lemma tick_config (w : World) (fr : Frame) :
  config (vars (exec (tick fr) w)) = config (vars w).
Proof.
  open_world w. js. repeat (break_if; js); reflexivity.
Qed.

Lemma ticks_without_timeout (frames : list (Z * Frame)) (w w' : World) :
  isScanning (vars w) = true ->
  scanTimeout (config (vars w)) = 0 ->
  run w (ticks frames) = Some w' ->
  isScanning (vars w') = true /\ scanTimeout (config (vars w')) = 0.
Proof.
  revert w. induction frames as [| [t fr] frames IH]; intros w Hrun Hzero Hsome.
  - injection Hsome as <-. auto.
  - cbn [ticks map run fst snd] in Hsome.
    destruct (step w (t, TickRuns fr)) as [w1 |] eqn:Hstep; [| discriminate].
    unfold step in Hstep. cbn [fst snd] in Hstep.
    destruct (pendingTicks (host (on_host (set_clock t) w))) as [| n]; [discriminate |].
    injection Hstep as <-.
    set (w0 := on_host (set_pendingTicks n) (on_host (set_clock t) w)) in *.
    assert (Hn : ~ idle w0).
    { unfold idle. cbn. rewrite Hzero. lia. }
    destruct (tick_not_idle w0 fr Hrun Hn) as [H1 _].
    apply (IH (exec (tick fr) w0)); auto.
    rewrite tick_config. exact Hzero.
Qed.

Lemma fetch_resume_failed (w : World) (barcode : string) (r : Response) :
  lookup_failed r ->
  screen (host (exec (fetch_resume barcode r) w)) =
    (screen (host w) ++ not_found_actions barcode (browser (host w)))%list.
Proof.
  intros Hfail. open_world w. unfold not_found_actions.
  destruct r as [e | status body]; js.
  - destruct (app browser0) as [| | [|] f]; cbn; repeat rewrite <- app_assoc; reflexivity.
  - assert (Hok : response_ok status = false).
    { unfold response_ok. apply andb_false_iff.
      destruct (Z.leb_spec 200 status); [right | left; reflexivity].
      apply Z.leb_gt. lia. }
    rewrite Hok. cbn.
    destruct (app browser0) as [| | [|] f]; cbn; repeat rewrite <- app_assoc; reflexivity.
Qed.

Lemma step_lastResult (w w' : World) (te : Z * Event) :
  step w te = Some w' ->
  getLastCode w' = getLastCode w \/
  (may_start (snd te) = true /\ getLastCode w' = "") \/
  (exists fr code loc,
     snd te = TickRuns fr /\ scan fr = ScanCode code loc /\
     accepted code (on_host (set_clock (fst te)) w) /\ getLastCode w' = code).
Proof.
  intros Hstep. destruct te as [t ev]. unfold step in Hstep. cbn [fst snd] in *.
  destruct ev as [o | | | barcode | r | fr | i r].
  - injection Hstep as <-.
    destruct (init_effect (on_host (set_clock t) w) o) as [_ [_ [_ [H | H]]]]; auto.
  - injection Hstep as <-. right. left. split; [reflexivity |].
    apply (start_begin_vars (on_host (set_clock t) w)).
  - injection Hstep as <-. left.
    open_world w. js. destruct activeStream0; reflexivity.
  - injection Hstep as <-. left.
    destruct (fetchProductByBarcode_effect (on_host (set_clock t) w) barcode) as [Hv _].
    unfold getLastCode. rewrite Hv. reflexivity.
  - destruct (pendingMedia (host (on_host (set_clock t) w))) as [| n]; [discriminate |].
    injection Hstep as <-. left.
    apply (start_resume_quiet (on_host (set_pendingMedia n) (on_host (set_clock t) w)) r).
  - destruct (pendingTicks (host (on_host (set_clock t) w))) as [| n]; [discriminate |].
    injection Hstep as <-.
    destruct (tick_filter_state (on_host (set_pendingTicks n) (on_host (set_clock t) w)) fr)
      as [[H _] | [code [loc [Hscan [Hacc [_ [Hlast _]]]]]]].
    + left. exact H.
    + right. right. exists fr, code, loc. auto.
  - destruct (nth_error (pendingLookups (host (on_host (set_clock t) w))) i) as [code |];
      [| discriminate].
    injection Hstep as <-. left.
    match goal with |- context [exec (fetch_resume code r) ?x] =>
      pose proof (fetch_resume_quiet x code r) as [Hv _] end.
    unfold getLastCode. rewrite Hv. reflexivity.
Qed.

(** ** The debounce filter *)

(** C1. A tick of the running scanner whose frame decodes to [code] accepts
    the candidate exactly when [code] differs from [lastResult] or more than
    [codeValidTimeout] ms have passed since [lastCodeFound]. An accepted
    candidate becomes [lastResult], the time becomes [lastCodeFound], and one
    confirmation (feedback, display, one lookup request) goes out; a
    suppressed one sends nothing. A candidate that differs from [lastResult]
    is accepted whatever the time. The stream A, A, A at 0, 100 and 2100 ms
    under a 2000 ms window confirms at 0 and at 2100 only. *)
Theorem debounce_filter :
  (forall (w : World) (fr : Frame) (code : string) (loc : Location),
     isScanning (vars w) = true ->
     ~ idle w ->
     enoughData fr = true ->
     Z.rem (countResults (vars w)) 10 = 0 ->
     scan fr = ScanCode code loc ->
     (accepted code w ->
      lastResult (vars (exec (tick fr) w)) = code /\
      lastCodeFound (vars (exec (tick fr) w)) = clock (host w) /\
      screen (host (exec (tick fr) w)) =
        (screen (host w) ++ frame_actions fr ++ [DrawOutline loc] ++
         confirmation (config (vars w)) (browser (host w)) code)%list /\
      dispatched (exec (tick fr) w) = (dispatched w ++ [lookup_url code])%list /\
      pendingLookups (host (exec (tick fr) w)) = (pendingLookups (host w) ++ [code])%list) /\
     (~ accepted code w ->
      lastResult (vars (exec (tick fr) w)) = lastResult (vars w) /\
      lastCodeFound (vars (exec (tick fr) w)) = lastCodeFound (vars w) /\
      screen (host (exec (tick fr) w)) =
        (screen (host w) ++ frame_actions fr ++ [DrawOutline loc])%list /\
      dispatched (exec (tick fr) w) = dispatched w /\
      pendingLookups (host (exec (tick fr) w)) = pendingLookups (host w)) /\
     (code <> lastResult (vars w) ->
      dispatched (exec (tick fr) w) = (dispatched w ++ [lookup_url code])%list))
  /\
  (forall w : World,
     lastResult (vars w) = "" ->
     codeValidTimeout (config (vars w)) = 2000 ->
     confirmed_events w [(0, "A"); (100, "A"); (2100, "A")] = [(0, "A"); (2100, "A")]).
Proof.
  split; [| exact stream_AAA].
  intros w fr code loc Hrun Hidle Hready Hcount Hscan.
  rewrite (tick_candidate w fr code loc Hrun Hidle Hready Hcount Hscan).
  set (w1 := draw (frame_actions fr ++ [DrawOutline loc]) w).
  assert (Hyes : accepted code w ->
            lastResult (vars (tick_end (exec (processCode code) w1))) = code /\
            lastCodeFound (vars (tick_end (exec (processCode code) w1))) = clock (host w) /\
            screen (host (tick_end (exec (processCode code) w1))) =
              (screen (host w) ++ frame_actions fr ++ [DrawOutline loc] ++
               confirmation (config (vars w)) (browser (host w)) code)%list /\
            dispatched (tick_end (exec (processCode code) w1)) =
              (dispatched w ++ [lookup_url code])%list /\
            pendingLookups (host (tick_end (exec (processCode code) w1))) =
              (pendingLookups (host w) ++ [code])%list).
  { intros Hacc. rewrite (processCode_accept w1 code Hacc).
    unfold dispatched. cbn. repeat split; auto.
    - repeat rewrite <- app_assoc. reflexivity.
    - requests_simpl. rewrite requests_confirmation. reflexivity. }
  split; [exact Hyes |]. split.
  - intros Hno. rewrite (processCode_suppress w1 code Hno).
    unfold dispatched. cbn. repeat split; auto. requests_simpl. reflexivity.
  - intros Hnew. apply Hyes. left. exact Hnew.
Qed.

Lemma debounce_filter_witness :
  accepted "A" started_world /\
  dispatched (exec (tick frame_A) started_world) =
    (dispatched started_world ++ [lookup_url "A"])%list.
Proof.
  assert (Hacc : accepted "A" started_world) by (left; cbn; discriminate).
  assert (Hidle : ~ idle started_world) by (unfold idle; cbn; lia).
  split; [exact Hacc |].
  destruct (proj1 debounce_filter started_world frame_A "A" no_location
              eq_refl Hidle eq_refl eq_refl eq_refl) as [Hyes _].
  exact (proj1 (proj2 (proj2 (proj2 (Hyes Hacc))))).
Defined.

(** ** The idle watchdog *)

(** C6. On a tick of the running scanner: if [scanTimeout] is positive and
    more than [scanTimeout] ms have passed since [lastCodeFound], the tick
    logs, calls [stop] and returns, so the scanner is stopped, its stream
    released and no further tick scheduled; otherwise the scanner stays
    running and the next tick is scheduled. With [scanTimeout = 0] no run of
    ticks ever stops the scanner. *)
Theorem idle_watchdog (w : World) (fr : Frame) :
  isScanning (vars w) = true ->
  (idle w ->
   exec (tick fr) w = exec stop (exec (console_log "Scanner timeout - desligando") w) /\
   isActive (exec (tick fr) w) = false /\
   activeStream (vars (exec (tick fr) w)) = None /\
   liveStreams (host (exec (tick fr) w)) =
     match activeStream (vars w) with
     | Some s => remove_stream s (liveStreams (host w))
     | None => liveStreams (host w)
     end /\
   pendingTicks (host (exec (tick fr) w)) = pendingTicks (host w)) /\
  (~ idle w ->
   isActive (exec (tick fr) w) = true /\
   pendingTicks (host (exec (tick fr) w)) = S (pendingTicks (host w))) /\
  (scanTimeout (config (vars w)) = 0 ->
   forall (frames : list (Z * Frame)) (w' : World),
     run w (ticks frames) = Some w' -> isActive w' = true).
Proof.
  intros Hrun. split; [| split].
  - intros Hidle. rewrite (tick_idle w fr Hrun Hidle).
    split; [reflexivity |].
    destruct (stop_stops (exec (console_log "Scanner timeout - desligando") w))
      as [H1 [H2 [H3 [H4 _]]]].
    unfold isActive. rewrite H1, H2, H3, H4. auto.
  - intros Hn. destruct (tick_not_idle w fr Hrun Hn) as [H1 [_ [_ H4]]].
    unfold isActive. auto.
  - intros Hzero frames w' Hsome.
    apply (ticks_without_timeout frames w w' Hrun Hzero Hsome).
Qed.

Lemma idle_watchdog_witness :
  idle idle_world /\ isActive idle_world = true /\
  isActive (exec (tick frame_A) idle_world) = false.
Proof.
  assert (Hidle : idle idle_world) by (unfold idle; cbn; lia).
  split; [exact Hidle |]. split; [reflexivity |].
  apply (proj1 (idle_watchdog idle_world frame_A eq_refl) Hidle).
Defined.

(** ** Stop *)

(** C7. After [stop], as long as nothing calls [start] (the public [start]
    or [init]), whatever else happens - ticks still scheduled, a camera
    request or lookups settling, further stops, lookups asked for from
    outside - the scanner stays stopped and the filter state is untouched;
    the only lookups dispatched are those asked for from outside, none comes
    from a tick; and a tick that runs then returns at once and leaves the
    world as it found it. *)
Theorem stop_is_terminal (w w' : World) (evs : list (Z * Event)) :
  no_start evs = true ->
  run (exec stop w) evs = Some w' ->
  isActive w' = false /\
  dispatched w' = (dispatched w ++ map lookup_url (manual_lookups evs))%list /\
  lastResult (vars w') = lastResult (vars w) /\
  lastCodeFound (vars w') = lastCodeFound (vars w) /\
  (forall fr, exec (tick fr) w' = w' /\ result (tick fr) w' = Return tt).
Proof.
  intros Hno Hrun.
  destruct (stop_stops w) as [Hoff [_ [_ [_ Hd]]]].
  destruct (run_stopped evs (exec stop w) w' Hoff Hno Hrun) as [H1 [H2 [H3 H4]]].
  assert (Hl : lastResult (vars (exec stop w)) = lastResult (vars w) /\
               lastCodeFound (vars (exec stop w)) = lastCodeFound (vars w)).
  { clear. open_world w. js. destruct activeStream0; split; reflexivity. }
  destruct Hl as [Hl1 Hl2].
  unfold isActive. rewrite H2, H3, H4, Hd, Hl1, Hl2.
  repeat split; auto; apply (tick_stopped w' fr H1).
Qed.

Lemma stop_is_terminal_witness :
  run (exec stop started_world) [(50, TickRuns frame_A)]
    = Some (after [(50, TickRuns frame_A)] (exec stop started_world)) /\
  isActive (after [(50, TickRuns frame_A)] (exec stop started_world)) = false /\
  dispatched (after [(50, TickRuns frame_A)] (exec stop started_world))
    = (dispatched started_world ++ [])%list.
Proof.
  assert (Hrun : run (exec stop started_world) [(50, TickRuns frame_A)]
                 = Some (after [(50, TickRuns frame_A)] (exec stop started_world)))
    by (vm_compute; reflexivity).
  destruct (stop_is_terminal started_world _ [(50, TickRuns frame_A)] eq_refl Hrun)
    as [H1 [H2 _]].
  split; [exact Hrun |]. split; [exact H1 | exact H2].
Defined.

(** ** Lookup failure *)

(** C8. When the lookup for [barcode] settles without success (transport
    error, or a status outside 200..299), the page shows the not-found state
    for [barcode]; no variable of the module changes, so the scanner keeps
    running if it was; no request is sent and the settled lookup leaves the
    pending ones, so nothing is retried. *)
Theorem lookup_failure_shown (w : World) (barcode : string) (r : Response) :
  lookup_failed r ->
  screen (host (exec (fetch_resume barcode r) w)) =
    (screen (host w) ++ not_found_actions barcode (browser (host w)))%list /\
  vars (exec (fetch_resume barcode r) w) = vars w /\
  isActive (exec (fetch_resume barcode r) w) = isActive w /\
  dispatched (exec (fetch_resume barcode r) w) = dispatched w /\
  pendingLookups (host (exec (fetch_resume barcode r) w)) = pendingLookups (host w) /\
  pendingTicks (host (exec (fetch_resume barcode r) w)) = pendingTicks (host w) /\
  (forall (t : Z) (i : nat),
     nth_error (pendingLookups (host w)) i = Some barcode ->
     exists w',
       step w (t, LookupSettles i r) = Some w' /\
       isActive w' = isActive w /\
       dispatched w' = dispatched w /\
       pendingLookups (host w') = remove_nth i (pendingLookups (host w)) /\
       screen (host w') = (screen (host w) ++ not_found_actions barcode (browser (host w)))%list).
Proof.
  intros Hfail.
  destruct (fetch_resume_quiet w barcode r) as [Hv [Hd [Hl [Ht _]]]].
  split; [apply fetch_resume_failed; exact Hfail |].
  split; [exact Hv |]. split; [unfold isActive; rewrite Hv; reflexivity |].
  split; [exact Hd |]. split; [exact Hl |]. split; [exact Ht |].
  intros t i Hnth. unfold step. cbn [fst snd].
  change (pendingLookups (host (on_host (set_clock t) w))) with (pendingLookups (host w)).
  rewrite Hnth. eexists. split; [reflexivity |].
  match goal with |- context [exec (fetch_resume barcode r) ?x] =>
    destruct (fetch_resume_quiet x barcode r) as [Kv [Kd [Kl _]]];
    pose proof (fetch_resume_failed x barcode r Hfail) as Ks end.
  unfold isActive. rewrite Kv, Kd, Kl, Ks. auto.
Qed.

Lemma lookup_failure_shown_witness :
  lookup_failed (Http 404 (Json None)) /\
  In (SetText OutputMessage "Produto não encontrado: 123")
     (screen (host (exec (fetch_resume "123" (Http 404 (Json None))) looking_up_123))) /\
  isActive (exec (fetch_resume "123" (Http 404 (Json None))) looking_up_123) = true.
Proof.
  assert (Hfail : lookup_failed (Http 404 (Json None))) by (cbn; lia).
  destruct (lookup_failure_shown looking_up_123 "123" (Http 404 (Json None)) Hfail)
    as [Hs [_ [Ha _]]].
  split; [exact Hfail |]. split.
  - rewrite Hs. apply in_or_app. right. left. reflexivity.
  - rewrite Ha. reflexivity.
Defined.

(** ** Decode failure *)

(** C9. [decodeBarcode] never throws to [tick], and [tick] never throws to
    the event loop, whatever the frame. A frame on which the decoder throws
    leaves the world as a frame without a code does, up to a line on the
    console; in particular the running scanner stays running and schedules
    its next tick. *)
Theorem decode_failure_swallowed (w : World) (ready : bool) (vw vh : Z) (e : string) :
  (forall fr, result (decodeBarcode fr) w = Return tt) /\
  (forall fr, result (tick fr) w = Return tt) /\
  exec (decodeBarcode (mkFrame ready vw vh (ScanThrows e))) w =
    exec (console_error ("Erro ao decodificar código: " ++ e)) w /\
  same_but_console
    (exec (tick (mkFrame ready vw vh (ScanThrows e))) w)
    (exec (tick (mkFrame ready vw vh ScanNone)) w) /\
  (isScanning (vars w) = true -> ~ idle w ->
   isActive (exec (tick (mkFrame ready vw vh (ScanThrows e))) w) = true /\
   pendingTicks (host (exec (tick (mkFrame ready vw vh (ScanThrows e))) w)) =
     S (pendingTicks (host w))).
Proof.
  split; [intros fr; apply decodeBarcode_returns |].
  split; [intros fr; apply tick_returns |].
  split; [apply decodeBarcode_failure; reflexivity |].
  split; [apply tick_decode_failure |].
  intros Hrun Hn.
  destruct (tick_not_idle w (mkFrame ready vw vh (ScanThrows e)) Hrun Hn) as [H1 [_ [_ H4]]].
  split; [exact H1 | exact H4].
Qed.

Lemma decode_failure_swallowed_witness :
  isActive (exec (tick (mkFrame true 1280 720 (ScanThrows "bad frame"))) started_world) = true /\
  pendingTicks (host (exec (tick (mkFrame true 1280 720 (ScanThrows "bad frame"))) started_world))
  = S (pendingTicks (host started_world)).
Proof.
  apply (decode_failure_swallowed started_world true 1280 720 "bad frame");
    [reflexivity | unfold idle; cbn; lia].
Defined.

(** ** The last code *)

(** C10. [getLastCode] is empty when the module is loaded and right after
    every call of [start]; an accepted candidate makes it that candidate's
    value and a suppressed one leaves it; and no turn of the event loop
    changes it except a call of [start] (to the empty string) and a tick that
    accepts a candidate (to that candidate's value). *)
Theorem getLastCode_last_confirmed :
  (forall (t0 : Z) (b : Browser), getLastCode (initial_world t0 b) = "") /\
  (forall w : World, getLastCode (exec start_begin w) = "") /\
  (forall (w : World) (r : MediaResult),
     getLastCode (exec (start_resume r) w) = getLastCode w) /\
  (forall (w : World) (code : string),
     accepted code w -> getLastCode (exec (processCode code) w) = code) /\
  (forall (w : World) (code : string),
     ~ accepted code w -> getLastCode (exec (processCode code) w) = getLastCode w) /\
  (forall (w w' : World) (te : Z * Event),
     step w te = Some w' ->
     getLastCode w' = getLastCode w \/
     (may_start (snd te) = true /\ getLastCode w' = "") \/
     (exists fr code loc,
        snd te = TickRuns fr /\ scan fr = ScanCode code loc /\
        accepted code (on_host (set_clock (fst te)) w) /\ getLastCode w' = code)).
Proof.
  split; [reflexivity |].
  split; [intros w; apply (start_begin_vars w) |].
  split; [intros w r; apply (start_resume_quiet w r) |].
  split; [intros w code H; rewrite (processCode_accept w code H); reflexivity |].
  split; [intros w code H; rewrite (processCode_suppress w code H); reflexivity |].
  exact step_lastResult.
Qed.

Lemma getLastCode_last_confirmed_witness :
  accepted "A" started_world /\
  getLastCode started_world = "" /\
  getLastCode (exec (processCode "A") started_world) = "A".
Proof.
  assert (Hacc : accepted "A" started_world) by (left; cbn; discriminate).
  split; [exact Hacc |]. split; [reflexivity |].
  apply (proj1 (proj2 (proj2 (proj2 getLastCode_last_confirmed))) started_world "A" Hacc).
Defined.

(** ** Starting *)

(** C2, as claimed, fails: after two successive calls of [start], both
    granted, two streams are live. *)
Lemma start_twice_two_sessions :
  ~ (forall (evs : list (Z * Event)) (w' : World),
       run (initial_world 0 full_browser) evs = Some w' ->
       (List.length (liveStreams (host w')) <= 1)%nat).
Proof.
  intros H.
  assert (Hrun : run (initial_world 0 full_browser) start_twice
                 = Some (after start_twice (initial_world 0 full_browser)))
    by (vm_compute; reflexivity).
  apply H in Hrun. vm_compute in Hrun. lia.
Qed.

(** C2, amended. [start] has no guard against an active session: each call
    whose camera request is granted opens one more stream and makes it
    [activeStream], whatever was active before, so two successive granted
    calls leave two more live streams, the second one tracked. The module
    tracks one stream at a time, and in every world reachable from the
    freshly loaded module the tracked stream is live and the live streams
    are distinct. *)
Theorem start_acquires_every_time :
  (forall w : World,
     activeStream (vars (exec (start_resume MediaGranted) w)) = Some (nextStream (host w)) /\
     liveStreams (host (exec (start_resume MediaGranted) w)) =
       nextStream (host w) :: liveStreams (host w)) /\
  (forall w : World,
     let w2 := exec (start_resume MediaGranted) (exec start_begin
                 (exec (start_resume MediaGranted) (exec start_begin w))) in
     activeStream (vars w2) = Some (S (nextStream (host w))) /\
     liveStreams (host w2) =
       S (nextStream (host w)) :: nextStream (host w) :: liveStreams (host w)) /\
  (forall (t0 : Z) (b : Browser) (evs : list (Z * Event)) (w : World),
     run (initial_world t0 b) evs = Some w -> streams_ok w).
Proof.
  split; [| split].
  - intros w. destruct (start_resume_granted w) as [H1 [H2 _]]. auto.
  - intros w. cbv zeta.
    destruct (start_begin_vars w) as [_ [_ [_ [_ [_ [_ [Hl0 [Hn0 _]]]]]]]].
    destruct (start_resume_granted (exec start_begin w)) as [_ [Hl1 [Hn1 _]]].
    destruct (start_begin_vars (exec (start_resume MediaGranted) (exec start_begin w)))
      as [_ [_ [_ [_ [_ [_ [Hl2 [Hn2 _]]]]]]]].
    destruct (start_resume_granted
                (exec start_begin (exec (start_resume MediaGranted) (exec start_begin w))))
      as [Ha3 [Hl3 _]].
    rewrite Ha3, Hl3, Hl2, Hn2, Hl1, Hn1, Hl0, Hn0. auto.
  - intros t0 b evs w Hrun.
    exact (run_streams_ok evs _ w (initial_streams_ok t0 b) Hrun).
Qed.

Lemma start_acquires_every_time_witness :
  run (initial_world 0 full_browser) start_twice
    = Some (after start_twice (initial_world 0 full_browser)) /\
  streams_ok (after start_twice (initial_world 0 full_browser)).
Proof.
  assert (Hrun : run (initial_world 0 full_browser) start_twice
                 = Some (after start_twice (initial_world 0 full_browser)))
    by (vm_compute; reflexivity).
  split; [exact Hrun |].
  exact (proj2 (proj2 start_acquires_every_time) 0 full_browser start_twice _ Hrun).
Defined.

(** C3, as claimed, fails: with the camera denied, neither part of [start]
    throws, and the scanner reports itself active afterwards. *)
Lemma failed_start_not_raised :
  result start_begin (initial_world 0 full_browser) = Return tt /\
  result (start_resume (MediaDenied "Permission denied"))
         (exec start_begin (initial_world 0 full_browser)) = Return tt /\
  isActive (exec (start_resume (MediaDenied "Permission denied"))
                 (exec start_begin (initial_world 0 full_browser))) = true.
Proof.
  repeat split; vm_compute; reflexivity.
Qed.

(** C3, amended. When the camera cannot be opened, [start] does not throw
    to its caller: it catches the error, logs it, shows
    "Erro ao acessar câmera: <message>" on the page and clears the loading
    message; no stream is opened and no tick is scheduled. This holds when
    the camera request is denied and when the browser has no
    [navigator.mediaDevices] at all. *)
Theorem failed_start_reported :
  (forall (w : World) (message : string),
     result (start_resume (MediaDenied message)) w = Return tt /\
     screen (host (exec (start_resume (MediaDenied message)) w)) =
       (screen (host w) ++
        [SetText OutputMessage ("Erro ao acessar câmera: " ++ message)%string;
         SetText LoadingMessage ""])%list /\
     console (host (exec (start_resume (MediaDenied message)) w)) =
       (console (host w) ++
        [(LevelError, ("Erro ao iniciar scanner: " ++ message)%string)])%list /\
     streams_of (exec (start_resume (MediaDenied message)) w) = streams_of w /\
     pendingTicks (host (exec (start_resume (MediaDenied message)) w)) =
       pendingTicks (host w)) /\
  (forall w : World,
     hasMediaDevices (browser (host w)) = false ->
     result start_begin w = Return tt /\
     screen (host (exec start_begin w)) =
       (screen (host w) ++
        [SetText OutputMessage "Erro ao acessar câmera: navigator.mediaDevices is undefined";
         SetText LoadingMessage ""])%list /\
     streams_of (exec start_begin w) = streams_of w /\
     pendingMedia (host (exec start_begin w)) = pendingMedia (host w) /\
     pendingTicks (host (exec start_begin w)) = pendingTicks (host w)).
Proof.
  split.
  - intros w message. open_world w. unfold streams_of. js.
    repeat split; repeat rewrite <- app_assoc; reflexivity.
  - intros w Hno. open_world w. unfold streams_of. js. rewrite Hno. cbn.
    repeat split; repeat rewrite <- app_assoc; reflexivity.
Qed.

Lemma failed_start_reported_witness :
  hasMediaDevices (browser (host (initial_world 0 old_browser))) = false /\
  result start_begin (initial_world 0 old_browser) = Return tt /\
  pendingTicks (host (exec start_begin (initial_world 0 old_browser))) = 0%nat.
Proof.
  destruct (proj2 failed_start_reported (initial_world 0 old_browser) eq_refl)
    as [H1 [_ [_ [_ H5]]]].
  split; [reflexivity |]. split; [exact H1 | exact H5].
Defined.

(** C4 on the code. A successful [start] empties [lastResult], sets
    [isScanning] and schedules the first tick, but leaves [lastCodeFound]
    as it was: it is not set to the time of the start. So the scanner that
    idled out and is started again at 9000 ms is stopped by its first tick,
    [lastCodeFound] still being 0, and the code in that frame is never
    looked up. *)
Theorem start_keeps_lastCodeFound :
  (forall w : World,
     let w' := exec (start_resume MediaGranted) (exec start_begin w) in
     lastResult (vars w') = "" /\
     isScanning (vars w') = true /\
     pendingTicks (host w') = S (pendingTicks (host w)) /\
     lastCodeFound (vars w') = lastCodeFound (vars w)) /\
  option_map (fun w => (isActive w, lastCodeFound (vars w), dispatched w))
    (run (initial_world 0 full_browser) restart_after_idle)
  = Some (false, 0, []).
Proof.
  split; [| vm_compute; reflexivity].
  intros w. cbv zeta.
  destruct (start_begin_vars w) as [Hs [Hr [Hf [_ [_ [_ [_ [_ [Ht _]]]]]]]]].
  destruct (start_resume_quiet (exec start_begin w) MediaGranted) as [Ks [Kr [Kf _]]].
  destruct (start_resume_granted (exec start_begin w)) as [_ [_ [_ Kt]]].
  rewrite Ks, Kr, Kf, Kt, Hs, Hr, Hf, Ht. auto.
Qed.

(** ** Activity *)

(** C5, as claimed, fails: the eleventh tick presents candidate A, which is
    suppressed (one lookup in all), and [lastCodeFound] is still 0 after it,
    not 1000. *)
Lemma suppressed_tick_no_refresh :
  option_map (fun w => (countResults (vars w), dispatched w, clock (host w),
                        lastCodeFound (vars w)))
    (run started_world eleven_ticks)
  = Some (11, [lookup_url "A"], 1000, 0).
Proof.
  vm_compute. reflexivity.
Qed.

(** C5, amended. A suppressed candidate changes nothing at all: the world
    after [processCode] is the world before. The module keeps one timestamp,
    [lastCodeFound], for the last confirmation and for the last activity; a
    tick leaves it as it was unless its frame decodes to an accepted
    candidate, and then sets it to the time of the tick. *)
Theorem suppressed_tick_changes_nothing :
  (forall (w : World) (code : string),
     ~ accepted code w -> exec (processCode code) w = w) /\
  (forall (w : World) (fr : Frame),
     lastCodeFound (vars (exec (tick fr) w)) = lastCodeFound (vars w) \/
     (exists code loc,
        scan fr = ScanCode code loc /\ accepted code w /\
        lastCodeFound (vars (exec (tick fr) w)) = clock (host w))).
Proof.
  split; [exact processCode_suppress |].
  intros w fr.
  destruct (tick_filter_state w fr) as [[_ [H _]] | [code [loc [H1 [H2 [_ [_ [H3 _]]]]]]]].
  - left. exact H.
  - right. exists code, loc. auto.
Qed.

Lemma suppressed_tick_changes_nothing_witness :
  ~ accepted "A" just_confirmed_A /\
  exec (processCode "A") just_confirmed_A = just_confirmed_A.
Proof.
  assert (Hno : ~ accepted "A" just_confirmed_A).
  { unfold accepted. cbn. intros [H | H]; [congruence | lia]. }
  split; [exact Hno |].
  apply (proj1 suppressed_tick_changes_nothing just_confirmed_A "A" Hno).
Defined.


(** * Further properties of the module *)

(** ** [stop] *)

(** X1. [stop] is idempotent on the state: a second [stop] changes no
    variable, stops no track and touches no queue; it only hides the scanner
    container again and logs again. *)
Theorem stop_twice (w : World) :
  vars (exec stop (exec stop w)) = vars (exec stop w) /\
  streams_of (exec stop (exec stop w)) = streams_of (exec stop w) /\
  screen (host (exec stop (exec stop w))) =
    (screen (host (exec stop w)) ++ [SetDisplay ScannerContainer "none"])%list /\
  pendingTicks (host (exec stop (exec stop w))) = pendingTicks (host w) /\
  pendingMedia (host (exec stop (exec stop w))) = pendingMedia (host w) /\
  pendingLookups (host (exec stop (exec stop w))) = pendingLookups (host w).
Proof.
  open_world w. unfold streams_of. js.
  destruct activeStream0; cbn; repeat split; reflexivity.
Qed.

(** X2. [stop] stops the tracks of the tracked stream and of no other: the
    tracked stream is no longer live afterwards, and every other stream is
    live afterwards exactly if it was before. With nothing tracked, no track
    is stopped. *)
Theorem stop_releases_tracked_only (w : World) :
  (forall s : Stream,
     activeStream (vars w) = Some s ->
     ~ In s (liveStreams (host (exec stop w))) /\
     (forall s' : Stream,
        s' <> s ->
        (In s' (liveStreams (host (exec stop w))) <-> In s' (liveStreams (host w)))) /\
     screen (host (exec stop w)) =
       (screen (host w) ++ [TrackStop s; SetDisplay ScannerContainer "none"])%list) /\
  (activeStream (vars w) = None ->
   liveStreams (host (exec stop w)) = liveStreams (host w) /\
   screen (host (exec stop w)) =
     (screen (host w) ++ [SetDisplay ScannerContainer "none"])%list).
Proof.
  destruct (stop_stops w) as [_ [_ [Hlive _]]]. split.
  - intros s Hs. rewrite Hlive, Hs. unfold remove_stream. split; [| split].
    + intros Hin. apply filter_In in Hin as [_ Hneq].
      rewrite Nat.eqb_refl in Hneq. discriminate.
    + intros s' Hneq. rewrite filter_In. split; [intros [H _]; exact H |].
      intros H. split; [exact H |]. apply negb_true_iff, Nat.eqb_neq. exact Hneq.
    + clear Hlive. open_world w. cbn in Hs. subst. js.
      rewrite <- app_assoc. reflexivity.
  - intros Hnone. rewrite Hlive, Hnone. split; [reflexivity |].
    clear Hlive. open_world w. cbn in Hnone. subst. js. reflexivity.
Qed.

Lemma stop_releases_tracked_only_witness :
  activeStream (vars started_world) = Some 0%nat /\
  ~ In 0%nat (liveStreams (host (exec stop started_world))).
Proof.
  split; [reflexivity |].
  exact (proj1 (proj1 (stop_releases_tracked_only started_world) 0%nat eq_refl)).
Defined.

(** X3. A camera grant that arrives while the scanner is stopped (the user
    stopped before answering the prompt) still opens the stream and tracks
    it, and schedules a tick; the scanner stays inactive, and that tick,
    like any other, does nothing: the camera is on until the next [stop]. *)
Theorem grant_while_stopped (w : World) :
  isScanning (vars w) = false ->
  isActive (exec (start_resume MediaGranted) w) = false /\
  activeStream (vars (exec (start_resume MediaGranted) w)) = Some (nextStream (host w)) /\
  In (nextStream (host w)) (liveStreams (host (exec (start_resume MediaGranted) w))) /\
  pendingTicks (host (exec (start_resume MediaGranted) w)) = S (pendingTicks (host w)) /\
  (forall fr : Frame,
     exec (tick fr) (exec (start_resume MediaGranted) w) = exec (start_resume MediaGranted) w) /\
  ~ In (nextStream (host w))
       (liveStreams (host (exec stop (exec (start_resume MediaGranted) w)))).
Proof.
  intros Hoff.
  destruct (start_resume_granted w) as [Ha [Hl [_ Ht]]].
  destruct (start_resume_quiet w MediaGranted) as [Hs _].
  assert (Hoff' : isScanning (vars (exec (start_resume MediaGranted) w)) = false)
    by (rewrite Hs; exact Hoff).
  split; [exact Hoff' |]. split; [exact Ha |].
  split; [rewrite Hl; left; reflexivity |]. split; [exact Ht |].
  split; [intros fr; apply (tick_stopped _ fr Hoff') |].
  destruct (stop_stops (exec (start_resume MediaGranted) w)) as [_ [_ [Hlive _]]].
  rewrite Hlive, Ha. unfold remove_stream. intros Hin.
  apply filter_In in Hin as [_ Hneq]. rewrite Nat.eqb_refl in Hneq. discriminate.
Qed.

Lemma grant_while_stopped_witness :
  isActive (exec (start_resume MediaGranted) stopped_before_grant) = false /\
  In 0%nat (liveStreams (host (exec (start_resume MediaGranted) stopped_before_grant))).
Proof.
  destruct (grant_while_stopped stopped_before_grant eq_refl) as [H1 [_ [H3 _]]].
  split; [exact H1 | exact H3].
Defined.

(** ** The tick loop *)

(** X4. Scheduled ticks are never cancelled: [stop] leaves them pending. A
    tick that runs while the scanner is stopped, or that idles it out, is
    consumed without a successor; a tick of the running scanner that the
    watchdog lets pass is replaced by exactly one successor. *)
Theorem tick_loop_count (w w' : World) (t : Z) (fr : Frame) :
  step w (t, TickRuns fr) = Some w' ->
  pendingTicks (host (exec stop w)) = pendingTicks (host w) /\
  (isScanning (vars w) = true -> ~ idle (on_host (set_clock t) w) ->
   pendingTicks (host w') = pendingTicks (host w)) /\
  (isScanning (vars w) = false \/ idle (on_host (set_clock t) w) ->
   S (pendingTicks (host w')) = pendingTicks (host w)).
Proof.
  intros Hstep. unfold step in Hstep. cbn [fst snd] in Hstep.
  destruct (pendingTicks (host (on_host (set_clock t) w))) as [| n] eqn:Hp; [discriminate |].
  injection Hstep as <-.
  change (pendingTicks (host w) = S n) in Hp. rewrite Hp.
  set (w0 := on_host (set_pendingTicks n) (on_host (set_clock t) w)).
  split; [destruct (stop_stops w) as [_ [_ [_ [H _]]]]; rewrite H; exact Hp |]. split.
  - intros Hrun Hn.
    destruct (tick_not_idle w0 fr Hrun Hn) as [_ [_ [_ H]]]. rewrite H. reflexivity.
  - intros [Hoff | Hidle].
    + destruct (tick_stopped w0 fr Hoff) as [-> _]. reflexivity.
    + destruct (isScanning (vars w)) eqn:Hrun.
      * rewrite (tick_idle w0 fr Hrun Hidle).
        destruct (stop_stops (exec (console_log "Scanner timeout - desligando") w0))
          as [_ [_ [_ [H _]]]].
        rewrite H. reflexivity.
      * destruct (tick_stopped w0 fr Hrun) as [-> _]. reflexivity.
Qed.

Lemma tick_loop_count_witness :
  pendingTicks (host (after [(20, TickRuns frame_A)] started_world))
  = pendingTicks (host started_world).
Proof.
  assert (Hstep : step started_world (20, TickRuns frame_A)
                  = Some (after [(20, TickRuns frame_A)] started_world))
    by (vm_compute; reflexivity).
  destruct (tick_loop_count _ _ _ _ Hstep) as [_ [H _]].
  apply H; [reflexivity | unfold idle; cbn; lia].
Defined.

(** X5. A tick of the running scanner that the watchdog lets pass decodes
    only a ready frame and only when [countResults] is a multiple of 10.
    Otherwise whatever code is in the frame is ignored: on a frame that is
    not ready the tick clears the loading message and schedules its
    successor; on a ready frame it also draws and counts the frame. *)
Theorem tick_without_decode (w : World) (fr : Frame) :
  isScanning (vars w) = true ->
  ~ idle w ->
  (enoughData fr = false ->
   exec (tick fr) w =
     on_host (fun h => set_pendingTicks (S (pendingTicks h)) h)
       (draw [SetText LoadingMessage ""] w)) /\
  (enoughData fr = true ->
   Z.rem (countResults (vars w)) 10 <> 0 ->
   exec (tick fr) w = tick_end (draw (frame_actions fr) w)).
Proof.
  intros Hrun Hidle.
  rewrite <- idle_dec in Hidle. apply not_true_is_false in Hidle.
  split.
  - intros Hready. open_world w. cbn in *. subst. js. rewrite Hidle, Hready. cbn.
    unfold draw. world_eq.
  - intros Hready Hcount. apply Z.eqb_neq in Hcount.
    open_world w. cbn in *. subst. js. rewrite Hidle, Hready. cbn. rewrite Hcount. cbn.
    unfold tick_end, draw. world_eq.
Qed.

Lemma tick_without_decode_witness :
  dispatched (exec (tick frame_A) after_first_frame) = dispatched after_first_frame /\
  countResults (vars (exec (tick frame_A) after_first_frame)) = 2.
Proof.
  assert (Hidle : ~ idle after_first_frame) by (unfold idle; cbn; lia).
  assert (Hcount : Z.rem (countResults (vars after_first_frame)) 10 <> 0)
    by (cbn; discriminate).
  rewrite (proj2 (tick_without_decode after_first_frame frame_A eq_refl Hidle) eq_refl Hcount).
  split; vm_compute; reflexivity.
Defined.

(** X6. [countResults] counts the ready frames: a tick of the running
    scanner that the watchdog lets pass adds one for a ready frame, decoded
    or not and whatever its decoding gives, and nothing for a frame that is
    not ready. *)
Theorem tick_counts_ready_frames (w : World) (fr : Frame) :
  isScanning (vars w) = true ->
  ~ idle w ->
  countResults (vars (exec (tick fr) w)) =
    countResults (vars w) + (if enoughData fr then 1 else 0).
Proof.
  intros Hrun Hidle.
  rewrite <- idle_dec in Hidle. apply not_true_is_false in Hidle.
  open_world w. cbn in *. subst. js. rewrite Hidle. cbn.
  repeat (break_if; js); lia.
Qed.

Lemma tick_counts_ready_frames_witness :
  countResults (vars (exec (tick frame_A) started_world)) = 1.
Proof.
  assert (Hidle : ~ idle started_world) by (unfold idle; cbn; lia).
  exact (tick_counts_ready_frames started_world frame_A eq_refl Hidle).
Defined.

(** ** Streams of candidates *)

Lemma suppressed_stream (code : string) (ts : list Z) (w : World) :
  lastResult (vars w) = code ->
  Forall (fun t => t - lastCodeFound (vars w) <= codeValidTimeout (config (vars w))) ts ->
  confirmed_events w (map (fun t => (t, code)) ts) = [] /\
  vars (fold_left candidate_at (map (fun t => (t, code)) ts) w) = vars w.
Proof.
  revert w. induction ts as [| t ts IH]; intros w Hlast Hall; [split; reflexivity |].
  inversion Hall as [| ? ? Ht Hrest]; subst.
  assert (Hno : ~ accepted (lastResult (vars w)) (on_host (set_clock t) w)).
  { unfold accepted. cbn. intros [H | H]; [congruence | lia]. }
  destruct (candidate_at_suppress w t _ Hno) as [Hw Hc].
  cbn [map confirmed_events fold_left]. rewrite Hc, Hw.
  apply (IH (on_host (set_clock t) w)); [reflexivity | exact Hrest].
Qed.

(** X7. Once a candidate is confirmed at [t0], the same value presented any
    number of times, each time no later than [codeValidTimeout] after [t0],
    is confirmed no more: the whole stream gives one confirmation, and the
    filter still holds the value and [t0] at its end. *)
Theorem repeats_within_window (w : World) (code : string) (t0 : Z) (ts : list Z) :
  accepted code (on_host (set_clock t0) w) ->
  Forall (fun t => t - t0 <= codeValidTimeout (config (vars w))) ts ->
  confirmed_events w ((t0, code) :: map (fun t => (t, code)) ts) = [(t0, code)] /\
  lastResult (vars (fold_left candidate_at ((t0, code) :: map (fun t => (t, code)) ts) w))
    = code /\
  lastCodeFound (vars (fold_left candidate_at ((t0, code) :: map (fun t => (t, code)) ts) w))
    = t0.
Proof.
  intros Hacc Hall.
  destruct (candidate_at_accept w t0 code Hacc) as [Hv Hc].
  cbn [confirmed_events fold_left]. rewrite Hc.
  destruct (suppressed_stream code ts (candidate_at w (t0, code))) as [Hnone Hvars].
  - rewrite Hv. reflexivity.
  - rewrite Hv. cbn. exact Hall.
  - rewrite Hnone, Hvars, Hv. repeat split; reflexivity.
Qed.

Lemma repeats_within_window_witness :
  confirmed_events started_world [(0, "A"); (100, "A"); (900, "A"); (2000, "A")]
  = [(0, "A")].
Proof.
  assert (Hacc : accepted "A" (on_host (set_clock 0) started_world))
    by (left; cbn; discriminate).
  assert (Hall : Forall (fun t => t - 0 <= codeValidTimeout (config (vars started_world)))
                   [100; 900; 2000])
    by (repeat constructor; cbn; lia).
  exact (proj1 (repeats_within_window started_world "A" 0 [100; 900; 2000] Hacc Hall)).
Defined.

(** X8. A stream in which every candidate differs from the one before it
    (the first from [lastResult]) is confirmed entirely, whatever the times:
    two codes seen in turn are looked up at every decode. *)
Theorem alternating_stream_confirmed (stream : list (Z * string)) (w : World) :
  distinct_neighbours (lastResult (vars w)) stream ->
  confirmed_events w stream = stream.
Proof.
  revert w. induction stream as [| [t code] rest IH]; intros w Hd; [reflexivity |].
  destruct Hd as [Hneq Hrest]. cbn [snd] in *.
  assert (Hacc : accepted code (on_host (set_clock t) w)) by (left; exact Hneq).
  destruct (candidate_at_accept w t code Hacc) as [Hv Hc].
  cbn [confirmed_events]. rewrite Hc.
  change ((t, code) :: confirmed_events (candidate_at w (t, code)) rest = (t, code) :: rest).
  f_equal. apply IH. rewrite Hv. exact Hrest.
Qed.

Lemma alternating_stream_confirmed_witness :
  confirmed_events started_world [(0, "A"); (10, "B"); (20, "A"); (30, "B")]
  = [(0, "A"); (10, "B"); (20, "A"); (30, "B")].
Proof.
  apply alternating_stream_confirmed. cbn. repeat split; discriminate.
Defined.

(** X9. [start] forgets the last code but not its time. After a call of
    [start], granted or not, a candidate that is not the empty string is
    confirmed at once, also the code that was confirmed just before the
    call; the empty string is confirmed only if more than [codeValidTimeout]
    has passed since [lastCodeFound]. *)
Theorem restart_forgets_last_code (w : World) (r : MediaResult) (code : string) :
  accepted code (exec (start_resume r) (exec start_begin w)) <->
  code <> "" \/ clock (host w) - lastCodeFound (vars w) > codeValidTimeout (config (vars w)).
Proof.
  unfold accepted.
  destruct (start_resume_quiet (exec start_begin w) r) as [_ [Hr [Hf [_ [Hc _]]]]].
  destruct (start_begin_vars w) as [_ [Hr0 [Hf0 [_ [_ [Hc0 _]]]]]].
  rewrite Hr, Hf, Hc, Hr0, Hf0, Hc0.
  assert (Hclock : clock (host (exec (start_resume r) (exec start_begin w))) = clock (host w)).
  { clear. open_world w. destruct r; js; destruct (hasMediaDevices browser0); reflexivity. }
  rewrite Hclock. reflexivity.
Qed.

(** ** [init] *)

Lemma init_merges_then_tests_aux (w : World) (o : Options) :
  config (vars (exec (init o) w)) = assign (config (vars w)) o /\
  result (init o) w = init_outcome (browser (host w)).
Proof.
  open_world w. unfold init_outcome. js.
  repeat (break_if; js); repeat split; try reflexivity; try discriminate.
Qed.

Lemma init_starts_aux (w : World) (o : Options) :
  result (init o) w = Return true ->
  autostart (assign (config (vars w)) o) = true ->
  isActive (exec (init o) w) = true /\
  pendingMedia (host (exec (init o) w)) = S (pendingMedia (host w)).
Proof.
  intros Hres Hauto. open_world w. js.
  destruct (hasCanvas browser0); cbn in *; [| discriminate].
  destruct (hasOutput browser0); cbn in *; [| discriminate].
  destruct (hasMediaDevices browser0) eqn:Hm; cbn in *; [| discriminate].
  rewrite Hauto. js. rewrite Hm. cbn. split; reflexivity.
Qed.

(** X10. [init] merges the options into the configuration before it tests
    anything, so the configuration is changed also when [init] fails. It
    throws if the canvas element is missing, returns [false] if the output
    elements are missing or the browser has no camera API, and [true]
    otherwise. It opens no stream and schedules no tick itself. *)
Theorem init_merges_then_tests (w : World) (o : Options) :
  config (vars (exec (init o) w)) = assign (config (vars w)) o /\
  result (init o) w = init_outcome (browser (host w)) /\
  streams_of (exec (init o) w) = streams_of w /\
  pendingTicks (host (exec (init o) w)) = pendingTicks (host w) /\
  lastCodeFound (vars (exec (init o) w)) = lastCodeFound (vars w).
Proof.
  open_world w. unfold streams_of, init_outcome. js.
  repeat (break_if; js); repeat split; try reflexivity; try discriminate.
Qed.

(** X11. [init] starts the scanner exactly when it returns [true] and the
    merged configuration has [autostart] set: then it asks for the camera
    with the merged [cameraFacingMode], sets [isScanning] and empties
    [lastResult]. In every other case it asks for no camera and leaves
    [isScanning] and [lastResult] alone. *)
Theorem init_autostart (w : World) (o : Options) :
  (result (init o) w = Return true ->
   autostart (assign (config (vars w)) o) = true ->
   isActive (exec (init o) w) = true /\
   getLastCode (exec (init o) w) = "" /\
   pendingMedia (host (exec (init o) w)) = S (pendingMedia (host w)) /\
   screen (host (exec (init o) w)) =
     (screen (host w) ++ [GetUserMedia (cameraFacingMode (assign (config (vars w)) o))])%list) /\
  (result (init o) w <> Return true \/ autostart (assign (config (vars w)) o) = false ->
   isActive (exec (init o) w) = isActive w /\
   getLastCode (exec (init o) w) = getLastCode w /\
   pendingMedia (host (exec (init o) w)) = pendingMedia (host w) /\
   requests (screen (host (exec (init o) w))) = requests (screen (host w))).
Proof.
  split.
  - intros Hres Hauto. open_world w. js.
    destruct (hasCanvas browser0); cbn in *; [| discriminate].
    destruct (hasOutput browser0); cbn in *; [| discriminate].
    destruct (hasMediaDevices browser0) eqn:Hm; cbn in *; [| discriminate].
    rewrite Hauto. js. rewrite Hm. cbn. repeat split; reflexivity.
  - intros Hno. open_world w. js.
    destruct (hasCanvas browser0); cbn in *; [| repeat split; reflexivity].
    destruct (hasOutput browser0); cbn in *; [| repeat split; reflexivity].
    destruct (hasMediaDevices browser0) eqn:Hm; cbn in *.
    + destruct (or_else (o_autostart o) (autostart config0)) eqn:Ha; js;
        rewrite ?Hm in *; cbn in *.
      * destruct Hno as [Hno | Hno]; [exfalso; apply Hno; reflexivity | discriminate].
      * repeat split; reflexivity.
    + repeat split; auto. requests_simpl. reflexivity.
Qed.

Lemma init_autostart_witness :
  isActive (exec (init page_options) (initial_world 0 full_browser)) = true /\
  pendingMedia (host (exec (init page_options) (initial_world 0 full_browser))) = 1%nat.
Proof.
  destruct (proj1 (init_autostart (initial_world 0 full_browser) page_options)
              eq_refl eq_refl) as [H1 [_ [H3 _]]].
  split; [exact H1 | exact H3].
Defined.

(** ** The settled lookup *)

Lemma response_ok_iff (status : Z) :
  response_ok status = true <-> 200 <= status <= 299.
Proof.
  unfold response_ok. rewrite andb_true_iff, !Z.leb_le. reflexivity.
Qed.

(** X12. A lookup answered with a 2xx status and a product whose card can
    be rendered shows the card (where the page has a product-info element),
    hides the output message, hands the product to [window.selectProduct]
    exactly if [selectByCode] is set and the hook is a function, and
    resolves to the product. *)
Theorem lookup_found (w : World) (barcode : string) (status : Z) (p : Product) :
  200 <= status <= 299 ->
  can_render (browser (host w)) = true ->
  screen (host (exec (fetch_resume barcode (Http status (Json (Some p)))) w)) =
    (screen (host w) ++ found_actions (config (vars w)) (browser (host w)) p)%list /\
  result (fetch_resume barcode (Http status (Json (Some p)))) w = Return (Some p) /\
  console (host (exec (fetch_resume barcode (Http status (Json (Some p)))) w)) =
    console (host w).
Proof.
  intros Hok Hrender. apply response_ok_iff in Hok.
  open_world w. unfold can_render, found_actions in *. js. rewrite Hok. cbn.
  destruct (hasProductInfo browser0); cbn in *.
  - destruct (app browser0) as [| | n [|]]; try discriminate. cbn.
    destruct (selectByCode config0 && hasSelectProduct browser0); cbn;
      repeat split; repeat rewrite <- app_assoc; reflexivity.
  - destruct (selectByCode config0 && hasSelectProduct browser0); cbn;
      repeat split; repeat rewrite <- app_assoc; reflexivity.
Qed.

Lemma lookup_found_witness :
  result (fetch_resume "123" (Http 200 (Json (Some sample_product)))) looking_up_123
  = Return (Some sample_product).
Proof.
  assert (Hok : 200 <= 200 <= 299) by lia.
  exact (proj1 (proj2 (lookup_found looking_up_123 "123" 200 sample_product Hok eq_refl))).
Defined.

(** X13. A lookup answered with a 2xx status and the body [null] shows
    neither a product nor the not-found state: the page is left on
    "Buscando produto...", the promise resolves to [null], and the select
    hook, if configured and present, is called with [null]. *)
Theorem lookup_null_body (w : World) (barcode : string) (status : Z) :
  200 <= status <= 299 ->
  screen (host (exec (fetch_resume barcode (Http status (Json None))) w)) =
    (screen (host w) ++
     (if selectByCode (config (vars w)) && hasSelectProduct (browser (host w))
      then [SelectProduct None] else []))%list /\
  result (fetch_resume barcode (Http status (Json None))) w = Return None /\
  console (host (exec (fetch_resume barcode (Http status (Json None))) w)) = console (host w).
Proof.
  intros Hok. apply response_ok_iff in Hok.
  open_world w. js. rewrite Hok. cbn.
  destruct (selectByCode config0 && hasSelectProduct browser0); cbn;
    repeat split; rewrite ?app_nil_r; reflexivity.
Qed.

Lemma lookup_null_body_witness :
  screen (host (exec (fetch_resume "123" (Http 200 (Json None))) looking_up_123)) =
    (screen (host looking_up_123) ++ [SelectProduct None])%list.
Proof.
  assert (Hok : 200 <= 200 <= 299) by lia.
  exact (proj1 (lookup_null_body looking_up_123 "123" 200 Hok)).
Defined.

(** X14. A 2xx answer that cannot be used is shown as not found: a body
    that is not JSON, or a product whose card cannot be rendered because the
    page has a product-info element but [app.formatMoney] is missing. The
    page shows exactly the not-found state for the barcode, and the select
    hook is not called although the lookup succeeded. *)
Theorem lookup_unusable_answer (w : World) (barcode : string) (status : Z) :
  200 <= status <= 299 ->
  (forall e : string,
     screen (host (exec (fetch_resume barcode (Http status (BadJson e))) w)) =
       (screen (host w) ++ not_found_actions barcode (browser (host w)))%list) /\
  (forall p : Product,
     can_render (browser (host w)) = false ->
     screen (host (exec (fetch_resume barcode (Http status (Json (Some p)))) w)) =
       (screen (host w) ++ not_found_actions barcode (browser (host w)))%list /\
     result (fetch_resume barcode (Http status (Json (Some p)))) w <> Return (Some p)).
Proof.
  intros Hok. apply response_ok_iff in Hok. split.
  - intros e. open_world w. unfold not_found_actions. js. rewrite Hok. cbn.
    destruct (app browser0) as [| | [|] f]; cbn; repeat rewrite <- app_assoc; reflexivity.
  - intros p Hrender. open_world w.
    destruct browser0 as [hc ho hm hv hs [|] a]; unfold can_render, not_found_actions in *;
      cbn in Hrender; [| discriminate].
    destruct a as [| | [|] [|]]; try discriminate; js; rewrite Hok; cbn;
      (split; [repeat rewrite <- app_assoc; reflexivity | discriminate]).
Qed.

Lemma lookup_unusable_answer_witness :
  In (SetText OutputMessage "Produto não encontrado: 123")
     (screen (host (exec (fetch_resume "123" (Http 200 (Json (Some sample_product))))
                         looking_up_no_money))).
Proof.
  assert (Hok : 200 <= 200 <= 299) by lia.
  destruct (proj2 (lookup_unusable_answer looking_up_no_money "123" 200 Hok)
              sample_product eq_refl) as [Hs _].
  rewrite Hs. apply in_or_app. right. left. reflexivity.
Defined.

(** X15. The promise of a failed lookup resolves to [null]; it rejects only
    on a page where the global [app] is not declared at all, and then after
    the not-found state has been shown. *)
Theorem lookup_failure_result (w : World) (barcode : string) (r : Response) :
  lookup_failed r ->
  result (fetch_resume barcode r) w =
    match app (browser (host w)) with
    | AppUndeclared => Throw "app is not defined"
    | _ => Return None
    end.
Proof.
  intros Hfail. open_world w. destruct r as [e | status body]; js.
  - destruct (app browser0) as [| | [|] f]; reflexivity.
  - assert (Hok : response_ok status = false).
    { destruct (response_ok status) eqn:H; [| reflexivity].
      apply response_ok_iff in H. contradiction. }
    rewrite Hok. cbn. destruct (app browser0) as [| | [|] f]; reflexivity.
Qed.

Lemma lookup_failure_result_witness :
  result (fetch_resume "123" (NetworkError "offline")) looking_up_123 = Return None.
Proof.
  exact (lookup_failure_result looking_up_123 "123" (NetworkError "offline") I).
Defined.

(** X16. Whatever the answer, a settling lookup changes no variable of the
    module, opens and stops no stream, schedules no tick, asks for no camera
    and sends no request: it acts on the page and the console only. *)
Theorem lookup_settles_on_page_only (w : World) (barcode : string) (r : Response) :
  vars (exec (fetch_resume barcode r) w) = vars w /\
  streams_of (exec (fetch_resume barcode r) w) = streams_of w /\
  pendingTicks (host (exec (fetch_resume barcode r) w)) = pendingTicks (host w) /\
  pendingMedia (host (exec (fetch_resume barcode r) w)) = pendingMedia (host w) /\
  pendingLookups (host (exec (fetch_resume barcode r) w)) = pendingLookups (host w) /\
  dispatched (exec (fetch_resume barcode r) w) = dispatched w.
Proof.
  destruct (fetch_resume_quiet w barcode r) as [Hv [Hd [Hl [Ht [Hm [Hs Hn]]]]]].
  unfold streams_of. rewrite Hv, Hs, Hn. repeat split; assumption.
Qed.

(** ** The page gate *)

Lemma split_on_nonempty (sep : Ascii.ascii) (s : string) : split_on sep s <> [].
Proof.
  destruct s as [| c rest]; cbn; [discriminate |].
  destruct (Ascii.eqb c sep); [discriminate |].
  destruct (split_on sep rest); discriminate.
Qed.

Lemma split_on_app (sep : Ascii.ascii) (a b : string) :
  exists l : list string,
    l <> [] /\ split_on sep (a ++ String sep b) = (l ++ split_on sep b)%list.
Proof.
  induction a as [| c a IH]; cbn.
  - rewrite Ascii.eqb_refl. exists [EmptyString]. split; [discriminate | reflexivity].
  - destruct IH as [l [Hl Heq]]. rewrite Heq.
    destruct (Ascii.eqb c sep).
    + exists (EmptyString :: l). split; [discriminate | reflexivity].
    + destruct l as [| piece pieces]; [contradiction |].
      exists (String c piece :: pieces). split; [discriminate | reflexivity].
Qed.

Lemma last_app_right {A : Type} (l1 l2 : list A) (d : A) :
  l2 <> [] -> last (l1 ++ l2) d = last l2 d.
Proof.
  intros Hne. induction l1 as [| x l1 IH]; [reflexivity |].
  change (last (x :: (l1 ++ l2)) d = last l2 d).
  destruct (l1 ++ l2)%list as [| y rest] eqn:Heq.
  - destruct l1; [cbn in Heq; contradiction | discriminate].
  - exact IH.
Qed.

Lemma page_name_after_slash (dir rest : string) :
  page_name (dir ++ String slash rest) = page_name rest.
Proof.
  unfold page_name.
  destruct (split_on_app slash dir rest) as [l [_ Heq]]. rewrite Heq.
  rewrite last_app_right by apply split_on_nonempty. reflexivity.
Qed.

(** X17. Only what follows the last slash of the path decides whether the
    scanner is set up: the directories before it are ignored. The pages
    [scan] and [venda-nova] are accepted with or without [.html]; a path
    that ends in a slash is not, nor is a name with [.html] twice, since
    only the first [.html] is removed - wherever it stands in the name. *)
Theorem page_gate (dir : string) :
  (forall rest : string, isValidPage (dir ++ String slash rest) = isValidPage rest) /\
  isValidPage (dir ++ "/scan") = true /\
  isValidPage (dir ++ "/scan.html") = true /\
  isValidPage (dir ++ "/venda-nova") = true /\
  isValidPage (dir ++ "/venda-nova.html") = true /\
  isValidPage (dir ++ "/scan/") = false /\
  isValidPage (dir ++ "/scan.html.html") = false /\
  isValidPage (dir ++ "/sc.htmlan") = true.
Proof.
  assert (H : forall rest, isValidPage (dir ++ String slash rest) = isValidPage rest).
  { intros rest. unfold isValidPage. rewrite page_name_after_slash. reflexivity. }
  split; [exact H |].
  repeat split.
  - exact (H "scan").
  - exact (H "scan.html").
  - exact (H "venda-nova").
  - exact (H "venda-nova.html").
  - exact (H "scan/").
  - exact (H "scan.html.html").
  - exact (H "sc.htmlan").
Qed.

(** X18. On a page that is not accepted the listener does nothing. On an
    accepted page it calls [init] with [autostart], the feedback options and
    [selectByCode] forced on, so that with the scanner elements and a camera
    API present the scanner is started even if the configuration had
    [autostart] off; and it goes on to publish the module whenever [init]
    returns, also when [init] returns [false]. *)
Theorem listener_runs_init (w : World) (pathname : string) :
  (isValidPage pathname = false ->
   exec (on_dom_content_loaded pathname) w = w /\
   result (on_dom_content_loaded pathname) w = Return false) /\
  (isValidPage pathname = true ->
   exec (on_dom_content_loaded pathname) w = exec (init page_options) w /\
   config (vars (exec (on_dom_content_loaded pathname) w)) =
     assign (config (vars w)) page_options /\
   result (on_dom_content_loaded pathname) w =
     (if hasCanvas (browser (host w)) then Return true
      else Throw "cannot read properties of null (reading 'getContext')") /\
   (init_outcome (browser (host w)) = Return true ->
    isActive (exec (on_dom_content_loaded pathname) w) = true /\
    pendingMedia (host (exec (on_dom_content_loaded pathname) w)) =
      S (pendingMedia (host w)))).
Proof.
  split.
  - intros Hno. unfold on_dom_content_loaded, exec, result. rewrite Hno.
    split; reflexivity.
  - intros Hyes.
    assert (Hexec : exec (on_dom_content_loaded pathname) w = exec (init page_options) w).
    { unfold on_dom_content_loaded, exec, bind, ret. rewrite Hyes.
      destruct (init page_options w) as [[b |e] w1]; reflexivity. }
    destruct (init_merges_then_tests_aux w page_options) as [Hcfg Hres].
    split; [exact Hexec |]. rewrite Hexec. split; [exact Hcfg |]. split.
    + unfold on_dom_content_loaded, result, bind, ret in *. rewrite Hyes.
      destruct (init page_options w) as [[b | e] w1]; cbn in *;
        unfold init_outcome in Hres;
        destruct (hasCanvas (browser (host w))); cbn in Hres;
        repeat (match type of Hres with context [if ?c then _ else _] => destruct c end);
        congruence.
    + intros Hall. rewrite <- Hres in Hall.
      destruct (init_starts_aux w page_options Hall eq_refl) as [H1 H2].
      split; [exact H1 | exact H2].
Qed.

Lemma listener_runs_init_witness :
  isValidPage "/pdv/venda-nova.html" = true /\
  isActive (exec (on_dom_content_loaded "/pdv/venda-nova.html") (initial_world 0 full_browser))
  = true.
Proof.
  assert (Hyes : isValidPage "/pdv/venda-nova.html" = true) by (vm_compute; reflexivity).
  destruct (proj2 (listener_runs_init (initial_world 0 full_browser) "/pdv/venda-nova.html")
              Hyes) as [_ [_ [_ H]]].
  split; [exact Hyes |]. exact (proj1 (H eq_refl)).
Defined.

(** ** The public lookup *)

(** X19. [fetchProductByBarcode] called from outside shows the searching
    message and sends one request for the barcode, running or stopped; it
    does not pass through the debounce filter and leaves the filter as it
    is, so a candidate is accepted after the call exactly if it was before:
    the camera seeing the same code next still looks it up. *)
Theorem outside_lookup_bypasses_filter (w : World) (barcode : string) :
  vars (exec (fetchProductByBarcode barcode) w) = vars w /\
  screen (host (exec (fetchProductByBarcode barcode) w)) =
    (screen (host w) ++
     [SetText OutputMessage "Buscando produto...";
      SetHidden OutputMessage false;
      HttpGet (lookup_url barcode)])%list /\
  pendingLookups (host (exec (fetchProductByBarcode barcode) w)) =
    (pendingLookups (host w) ++ [barcode])%list /\
  (forall code : string,
     accepted code (exec (fetchProductByBarcode barcode) w) <-> accepted code w).
Proof.
  open_world w. unfold accepted. js.
  repeat split; repeat rewrite <- app_assoc; auto.
Qed.
